(** * lib/documentmanager.js: the per-document synchronization manager

    A shallow embedding of [DocumentManager].  The three dictionaries of the
    manager ([_documents], [_documentDeferreds], [_documentChanges]) are finite
    maps keyed by the numeric document id; Document objects, Q deferreds and
    the outstanding [getDocumentInfo] requests live in stores indexed by
    reference, because the code shares them by reference.  Every method is a
    computation in a small state-and-exception monad; the asynchronous
    callbacks become reactions to events delivered to the manager. *)

From stdpp Require Import gmap list.
From Stdlib Require Import ZArith Lia.

Module DocumentManager.

(** Document objects, deferreds and requests are named by their index in
    the store that holds them. *)
Abbreviation DocRef := nat.
Abbreviation DeferredRef := nat.
Abbreviation RequestRef := nat.

Section Manager.

(** What the collaborators exchange with the manager: the fields of a raw
    change other than its id, the raw document description delivered by
    [generator.getDocumentInfo], the error of a failed request, and the
    contents held by a Document object. *)
Context {Payload Raw Err Content : Type}.

(** A raw change description object.  [change.id] is absent ([None]) or a
    number. *)
Record Change : Type := mkChange {
  change_id : option Z;
  change_body : Payload
}.

(** What one call of [document._applyChange(change)] does: the contents it
    leaves in the document, the boolean it returns, and whether the
    document emitted "closed" while the call ran. *)
Record Applied : Type := mkApplied {
  applied_content : Content;
  applied_success : bool;
  applied_closed : bool
}.

(** [new Document(generator, config, logger, raw)] and
    [Document.prototype._applyChange] come from lib/dom/document.js. *)
Variable newDocument : Raw -> Content.
Variable applyChange : Content -> Change -> Applied.


(** A Document object: its contents, and the id captured by the "closed"
    listener that [_resetDocument] registers on it. *)
Record DocumentObj : Type := mkDocumentObj {
  doc_content : Content;
  doc_listener : Z
}.

(** A Q deferred: unsettled, resolved with a value (the document, or
    [undefined]) or rejected with a reason ([reject()] gives none). *)
Inductive Settlement : Type :=
| Unsettled
| Resolved (document : option DocRef)
| Rejected (reason : option Err).

(** A [getDocumentInfo(id)] request issued by [_getEntireDocument]. *)
Record Request : Type := mkRequest {
  request_id : Z;
  request_done : bool
}.

Inductive LogEntry : Type :=
| DebugApplyingChange (change : Change)
| WarnUnableToApply
| WarnUnknownDocument (change : Change)
| ErrorFailedToGet (err : Err).

Record State : Type := mkState {
  _documents : gmap Z DocRef;
  _documentDeferreds : gmap Z DeferredRef;
  _documentChanges : gmap Z (list Change);
  docStore : list DocumentObj;
  deferredStore : list Settlement;
  requests : list Request;
  applyCalls : list (DocRef * Change);
  logger : list LogEntry
}.

(** The manager as the constructor leaves it. *)
Definition initial : State :=
  mkState ∅ ∅ ∅ [] [] [] [] [].

Definition with_documents (f : gmap Z DocRef -> gmap Z DocRef) (s : State) : State :=
  mkState (f (_documents s)) (_documentDeferreds s) (_documentChanges s)
          (docStore s) (deferredStore s) (requests s) (applyCalls s) (logger s).

Definition with_documentDeferreds (f : gmap Z DeferredRef -> gmap Z DeferredRef)
    (s : State) : State :=
  mkState (_documents s) (f (_documentDeferreds s)) (_documentChanges s)
          (docStore s) (deferredStore s) (requests s) (applyCalls s) (logger s).

Definition with_documentChanges (f : gmap Z (list Change) -> gmap Z (list Change))
    (s : State) : State :=
  mkState (_documents s) (_documentDeferreds s) (f (_documentChanges s))
          (docStore s) (deferredStore s) (requests s) (applyCalls s) (logger s).

Definition with_docStore (f : list DocumentObj -> list DocumentObj) (s : State) : State :=
  mkState (_documents s) (_documentDeferreds s) (_documentChanges s)
          (f (docStore s)) (deferredStore s) (requests s) (applyCalls s) (logger s).

Definition with_deferredStore (f : list Settlement -> list Settlement) (s : State) : State :=
  mkState (_documents s) (_documentDeferreds s) (_documentChanges s)
          (docStore s) (f (deferredStore s)) (requests s) (applyCalls s) (logger s).

Definition with_requests (f : list Request -> list Request) (s : State) : State :=
  mkState (_documents s) (_documentDeferreds s) (_documentChanges s)
          (docStore s) (deferredStore s) (f (requests s)) (applyCalls s) (logger s).

Definition with_applyCalls (f : list (DocRef * Change) -> list (DocRef * Change))
    (s : State) : State :=
  mkState (_documents s) (_documentDeferreds s) (_documentChanges s)
          (docStore s) (deferredStore s) (requests s) (f (applyCalls s)) (logger s).

Definition with_logger (f : list LogEntry -> list LogEntry) (s : State) : State :=
  mkState (_documents s) (_documentDeferreds s) (_documentChanges s)
          (docStore s) (deferredStore s) (requests s) (applyCalls s) (f (logger s)).

(** ** The monad of the methods

    A method runs on the manager's state and either returns, or throws a
    TypeError (a property access on [undefined]) leaving the state as it
    was at the throw.  [OutOfFuel] is the third outcome of the bounded
    recursion that models [_processNextChange]; it never comes out of
    [_processNextChange] itself (see [processNextChange_evolves] and
    [processNextChange_fuel_enough]). *)
Inductive Outcome (A : Type) : Type :=
| Returns (a : A) (s : State)
| TypeError (s : State)
| OutOfFuel.
Global Arguments Returns {A} a s.
Global Arguments TypeError {A} s.
Global Arguments OutOfFuel {A}.

Definition M (A : Type) : Type := State -> Outcome A.

Definition ret {A} (a : A) : M A := fun s => Returns a s.

Definition bind {A B} (m : M A) (k : A -> M B) : M B :=
  fun s => match m s with
           | Returns a s' => k a s'
           | TypeError s' => TypeError s'
           | OutOfFuel => OutOfFuel
           end.

Definition get : M State := fun s => Returns s s.
Definition modify (f : State -> State) : M unit := fun s => Returns tt (f s).
Definition throwTypeError {A} : M A := fun s => TypeError s.

#[global] Instance M_ret : MRet M := @ret.
#[global] Instance M_bind : MBind M := fun A B k m => bind m k.

(** The state a computation ends in, when it returns. *)
Definition finalState {A} (o : Outcome A) : option State :=
  match o with Returns _ s => Some s | _ => None end.

(** ** Q deferreds *)

(** [Q.defer()]. *)
Definition defer : M DeferredRef :=
  s ← get;
  modify (with_deferredStore (fun h => h ++ [Unsettled])) ;;
  ret (length (deferredStore s)).

(** [deferred.resolve(v)] and [deferred.reject(e)]: a deferred settles
    once; settling it again does nothing. *)
Definition settled (deferred : DeferredRef) (v : Settlement)
    (h : list Settlement) : list Settlement :=
  match h !! deferred with
  | Some Unsettled => <[deferred := v]> h
  | _ => h
  end.

Definition settle (deferred : DeferredRef) (v : Settlement) : M unit :=
  modify (with_deferredStore (settled deferred v)).

Definition log (e : LogEntry) : M unit :=
  modify (with_logger (fun l => l ++ [e])).

(** ** The methods *)

(** The body of the "closed" listener of [_resetDocument(id)]. *)
Definition closedListener (id : Z) : M unit :=
  modify (with_documents (delete id)) ;;
  modify (with_documentChanges (delete id)) ;;
  s ← get;
  match _documentDeferreds s !! id with
  | Some deferred =>
      settle deferred (Rejected None) ;;
      modify (with_documentDeferreds (delete id))
  | None => ret tt
  end.

(** The part of [_resetDocument(id)] that runs at the call: the queue is
    replaced by an empty one, the document is forgotten, and a request for
    the entire document is issued.  Its two callbacks are
    [_resetDocument_fulfilled] and [_resetDocument_rejected]. *)
Definition _resetDocument (id : Z) : M unit :=
  modify (with_documentChanges (<[id := []]>)) ;;
  modify (with_documents (delete id)) ;;
  modify (with_requests (fun r => r ++ [mkRequest id false])).

(** [_initDocument(id)]. *)
Definition _initDocument (id : Z) : M DeferredRef :=
  deferred ← defer;
  modify (with_documentDeferreds (<[id := deferred]>)) ;;
  _resetDocument id ;;
  ret deferred.

(** [document._applyChange(change)] on the Document object [d]: the call is
    recorded, the object is mutated in place, and when it emits "closed"
    during the call its listener runs before the call returns.  (The
    manager only holds references it got from the store, so the first
    branch is never taken from a state the manager reaches.) *)
Definition callApplyChange (d : DocRef) (change : Change) : M bool :=
  s ← get;
  match docStore s !! d with
  | None => throwTypeError
  | Some obj =>
      let r := applyChange (doc_content obj) change in
      modify (with_applyCalls (fun l => l ++ [(d, change)])) ;;
      modify (with_docStore
                (<[d := mkDocumentObj (applied_content r) (doc_listener obj)]>)) ;;
      (if applied_closed r then closedListener (doc_listener obj) else ret tt) ;;
      ret (applied_success r)
  end.

(** [_processNextChange(id)], the recursion bounded by [fuel]. *)
Fixpoint _processNextChange_fuel (fuel : nat) (id : Z) : M unit :=
  match fuel with
  | O => fun _ => OutOfFuel
  | S fuel' =>
      s ← get;
      let document := _documents s !! id in
      match _documentChanges s !! id, _documentDeferreds s !! id with
      | Some changes, Some deferred =>
          match changes with
          | [] =>
              settle deferred (Resolved document) ;;
              modify (with_documentDeferreds (delete id))
          | change :: rest =>
              modify (with_documentChanges (<[id := rest]>)) ;;
              log (DebugApplyingChange change) ;;
              match document with
              | None => throwTypeError
              | Some d =>
                  success ← callApplyChange d change;
                  if negb success then
                    log WarnUnableToApply ;;
                    _resetDocument id
                  else
                    _processNextChange_fuel fuel' id
              end
          end
      | _, _ => ret tt
      end
  end.

(** The number of changes queued for [id]. *)
Definition queued (id : Z) (s : State) : nat :=
  match _documentChanges s !! id with
  | Some changes => length changes
  | None => O
  end.

(** [_processNextChange(id)]: every recursive call follows a [shift], so
    one call more than there are queued changes is enough. *)
Definition _processNextChange (id : Z) : M unit :=
  fun s => _processNextChange_fuel (S (queued id s)) id s.

(** The success callback of [_resetDocument(id)], run when the request
    delivers [raw]: [_getEntireDocument] builds the Document, the callback
    registers the "closed" listener on it, installs it and starts
    processing. *)
Definition _resetDocument_fulfilled (id : Z) (raw : Raw) : M unit :=
  s ← get;
  let document := length (docStore s) in
  modify (with_docStore (fun h => h ++ [mkDocumentObj (newDocument raw) id])) ;;
  modify (with_documents (<[id := document]>)) ;;
  _processNextChange id.

(** The failure callback of [_resetDocument(id)]. *)
Definition _resetDocument_rejected (id : Z) (err : Err) : M unit :=
  log (ErrorFailedToGet err) ;;
  s ← get;
  match _documentDeferreds s !! id with
  | Some deferred => settle deferred (Rejected (Some err))
  | None => throwTypeError
  end.

(** [!id] for the id of a change: true when the id is absent or 0. *)
Definition falsy (id : option Z) : bool :=
  match id with
  | None => true
  | Some n => Z.eqb n 0
  end.

(** [_handleImageChanged(change)]. *)
Definition _handleImageChanged (change : Change) : M unit :=
  match change_id change with
  | None => log (WarnUnknownDocument change)
  | Some id =>
      if falsy (Some id) then log (WarnUnknownDocument change)
      else
        s ← get;
        if bool_decide (_documentDeferreds s !! id = None)
           && bool_decide (_documents s !! id = None)
        then ret tt
        else
          (if bool_decide (_documentChanges s !! id = None)
           then modify (with_documentChanges (<[id := []]>))
           else ret tt) ;;
          s1 ← get;
          let changes := default [] (_documentChanges s1 !! id) in
          modify (with_documentChanges (<[id := changes ++ [change]]>)) ;;
          let pendingChanges := length (changes ++ [change]) in
          s2 ← get;
          if Nat.eqb pendingChanges 1
             && bool_decide (_documentDeferreds s2 !! id = None)
          then
            match _documents s2 !! id with
            | Some _ =>
                deferred ← defer;
                modify (with_documentDeferreds (<[id := deferred]>)) ;;
                _processNextChange id
            | None =>
                _initDocument id ;; ret tt
            end
          else ret tt
  end.

(** The promise [getDocument] hands out: the promise of a deferred, or a
    new promise already fulfilled with a document ([new Q(document)]). *)
Inductive Promise : Type :=
| PromiseOf (deferred : DeferredRef)
| FulfilledWith (document : DocRef).

(** [getDocument(id)]. *)
Definition getDocument (id : Z) : M Promise :=
  s ← get;
  match _documentDeferreds s !! id with
  | Some deferred => ret (PromiseOf deferred)
  | None =>
      match _documents s !! id with
      | Some document => ret (FulfilledWith document)
      | None =>
          deferred ← _initDocument id;
          ret (PromiseOf deferred)
      end
  end.

(** ** Events

    What reaches the manager: a client calls [getDocument]; Photoshop
    sends "imageChanged"; an outstanding request delivers the raw document
    or fails; a Document object emits "closed".  The listener that
    [_resetDocument] registers on a Document is never removed, so it also
    runs for a Document that the manager has forgotten since. *)
Inductive Event : Type :=
| CallGetDocument (id : Z)
| ImageChanged (change : Change)
| RequestFulfilled (request : RequestRef) (raw : Raw)
| RequestRejected (request : RequestRef) (err : Err)
| DocumentClosed (document : DocRef).

(** A request settles once: its callback runs and the request is done. *)
Definition settleRequest (request : RequestRef) (k : Z -> M unit) : M unit :=
  s ← get;
  match requests s !! request with
  | Some (mkRequest id false) =>
      modify (with_requests (<[request := mkRequest id true]>)) ;;
      k id
  | _ => ret tt
  end.

Definition react (e : Event) : M unit :=
  match e with
  | CallGetDocument id => getDocument id ;; ret tt
  | ImageChanged change => _handleImageChanged change
  | RequestFulfilled request raw =>
      settleRequest request (fun id => _resetDocument_fulfilled id raw)
  | RequestRejected request err =>
      settleRequest request (fun id => _resetDocument_rejected id err)
  | DocumentClosed document =>
      s ← get;
      match docStore s !! document with
      | Some obj => closedListener (doc_listener obj)
      | None => ret tt
      end
  end.

(** The events of a list delivered in order; an uncaught TypeError stops
    the run. *)
Fixpoint run (events : list Event) : M unit :=
  match events with
  | [] => ret tt
  | e :: rest => react e ;; run rest
  end.

(** ** The notions the properties are stated with *)

(** The contents a document holds after the changes of [cs] have been
    applied to it one after the other. *)
Definition applyAll (content : Content) (cs : list Change) : Content :=
  foldl (fun c change => applied_content (applyChange c change)) content cs.

(** Every change of [cs], applied in turn, is reported as applied, and the
    document does not emit "closed" meanwhile. *)
Fixpoint allApplied (content : Content) (cs : list Change) : bool :=
  match cs with
  | [] => true
  | change :: rest =>
      let r := applyChange content change in
      applied_success r && negb (applied_closed r)
      && allApplied (applied_content r) rest
  end.

(** The changes of [cs] all carry the id [id]. *)
Definition allFor (id : Z) (cs : list Change) : bool :=
  forallb (fun change => bool_decide (change_id change = Some id)) cs.

(** [id] is Ready: it has the document [d], no deferred, and no queued
    change. *)
Definition ready (id : Z) (d : DocRef) (s : State) : Prop :=
  _documents s !! id = Some d /\
  _documentDeferreds s !! id = None /\
  queued id s = O.

(** The state the events of [events] lead to from the initial one. *)
Definition stateAfter (events : list Event) : State :=
  default initial (finalState (run events initial)).

(** Every unsettled deferred is the registry entry of a key, the registry
    holds allocated deferreds only, and no deferred is the entry of two
    keys. *)
Record registry_ok (s : State) : Prop := mkRegistryOk {
  ok_registered : forall df,
    deferredStore s !! df = Some Unsettled ->
    exists id, _documentDeferreds s !! id = Some df;
  ok_allocated : forall id df,
    _documentDeferreds s !! id = Some df -> df < length (deferredStore s);
  ok_injective : forall id1 id2 df,
    _documentDeferreds s !! id1 = Some df ->
    _documentDeferreds s !! id2 = Some df -> id1 = id2
}.

(** A registry entry is never replaced: an entry of [s] is the same in
    [s'] or is gone. *)
Definition never_replaced (s s' : State) : Prop :=
  forall id df,
    _documentDeferreds s !! id = Some df ->
    _documentDeferreds s' !! id = Some df \/ _documentDeferreds s' !! id = None.

(** [P] holds of the state a computation ends in, whether it returns or
    throws, and the computation does end. *)
Definition ends {A} (o : Outcome A) (P : State -> Prop) : Prop :=
  match o with
  | Returns _ s' => P s'
  | TypeError s' => P s'
  | OutOfFuel => False
  end.

(** From [s] to [s'] the registry lost entries at most, and stayed
    well-formed if it was. *)
Definition evolves (s s' : State) : Prop :=
  (registry_ok s -> registry_ok s') /\
  (forall id df,
     _documentDeferreds s' !! id = Some df ->
     _documentDeferreds s !! id = Some df).

(** [evolves], and no queue grew. *)
Definition calm (s s' : State) : Prop :=
  evolves s s' /\ forall id, queued id s' <= queued id s.

(** [P] holds of the state a computation ends in, if it ends. *)
Definition lands {A} (o : Outcome A) (P : State -> Prop) : Prop :=
  match o with
  | Returns _ s' => P s'
  | TypeError s' => P s'
  | OutOfFuel => True
  end.

(** The document of a key is a Document object of the store, and the
    "closed" listener registered on it captured that key. *)
Definition documents_ok (s : State) : Prop :=
  forall id d,
    _documents s !! id = Some d ->
    exists obj, docStore s !! d = Some obj /\ doc_listener obj = id.

(** From [s] to [s'] the documents of the keys stayed well-formed if they
    were. *)
Definition keeps (s s' : State) : Prop :=
  documents_ok s -> documents_ok s'.

(** What C2 says of the key [id]: changes delivered one at a time to a
    Ready key, each of them applied, make one [_applyChange] call each, in
    the order of delivery, and leave the document with the contents of
    their sequential application; and [_processNextChange] takes the
    changes of a queue from its front: it applies them in queue order. *)
Definition changes_applied_in_order (id : Z) : Prop :=
  (forall (s : State) (d : DocRef) (obj : DocumentObj) (cs : list Change),
     ready id d s ->
     docStore s !! d = Some obj ->
     allFor id cs = true ->
     allApplied (doc_content obj) cs = true ->
     exists s',
       run (map ImageChanged cs) s = Returns tt s' /\
       applyCalls s' = applyCalls s ++ map (pair d) cs /\
       doc_content <$> docStore s' !! d = Some (applyAll (doc_content obj) cs) /\
       ready id d s') /\
  (forall (s : State) (d : DocRef) (obj : DocumentObj) (df : DeferredRef)
          (cs : list Change),
     _documents s !! id = Some d ->
     docStore s !! d = Some obj ->
     _documentDeferreds s !! id = Some df ->
     _documentChanges s !! id = Some cs ->
     allApplied (doc_content obj) cs = true ->
     exists s',
       _processNextChange id s = Returns tt s' /\
       applyCalls s' = applyCalls s ++ map (pair d) cs /\
       doc_content <$> docStore s' !! d = Some (applyAll (doc_content obj) cs) /\
       _documentChanges s' !! id = Some []).

(** What C6 says: when "closed" is emitted for a key whose request is
    outstanding, the waiting deferred is rejected and the document that
    the request later delivers is not installed. *)
Definition late_result_ignored : Prop :=
  forall (s : State) (id : Z) (request : RequestRef) (d : DocRef)
         (obj : DocumentObj) (df : DeferredRef) (raw : Raw),
    requests s !! request = Some (mkRequest id false) ->
    docStore s !! d = Some obj ->
    doc_listener obj = id ->
    _documentDeferreds s !! id = Some df ->
    deferredStore s !! df = Some Unsettled ->
    exists s',
      run [DocumentClosed d; RequestFulfilled request raw] s = Returns tt s' /\
      deferredStore s' !! df = Some (Rejected None) /\
      _documents s' !! id = None.

(** ** The notions of the further properties *)

(** The key an event is about: the id asked for, the id of the change, the
    id of the request, the id captured by the "closed" listener of the
    document. *)
Definition eventKey (e : Event) (s : State) : option Z :=
  match e with
  | CallGetDocument id => Some id
  | ImageChanged change => change_id change
  | RequestFulfilled request _ => request_id <$> requests s !! request
  | RequestRejected request _ => request_id <$> requests s !! request
  | DocumentClosed document => doc_listener <$> docStore s !! document
  end.

(** [e] is not about the key [k]. *)
Definition aboutOther (e : Event) (s : State) (k : Z) : bool :=
  negb (bool_decide (eventKey e s = Some k)).

(** [e] is not the failure of a request. *)
Definition notRejection (e : Event) : bool :=
  match e with
  | RequestRejected _ _ => false
  | _ => true
  end.

(** The key [k] has in [s'] the document, the registry entry and the queue
    it has in [s]. *)
Definition sameAt (k : Z) (s s' : State) : Prop :=
  _documents s' !! k = _documents s !! k /\
  _documentDeferreds s' !! k = _documentDeferreds s !! k /\
  _documentChanges s' !! k = _documentChanges s !! k.

(** Every key other than [x] has in [s'] what it has in [s]. *)
Definition elsewhere (x : option Z) (s s' : State) : Prop :=
  forall k, x <> Some k -> sameAt k s s'.

(** A key without a registry entry has no queued change. *)
Definition idle_ok (s : State) : Prop :=
  forall id, _documentDeferreds s !! id = None -> queued id s = O.

(** The changes queued for a key carry the id of that key. *)
Definition queues_ok (s : State) : Prop :=
  forall id q c,
    _documentChanges s !! id = Some q -> c ∈ q -> change_id c = Some id.

(** Every [_applyChange] call was made on a Document object, with a change
    carrying the id that the document was requested for. *)
Definition calls_ok (s : State) : Prop :=
  forall i d c,
    applyCalls s !! i = Some (d, c) ->
    exists obj, docStore s !! d = Some obj /\ change_id c = Some (doc_listener obj).

(** A deferred that is resolved is resolved with a Document object. *)
Definition resolved_ok (s : State) : Prop :=
  forall df v,
    deferredStore s !! df = Some (Resolved v) ->
    exists d obj, v = Some d /\ docStore s !! d = Some obj.

(** A key with a registry entry has a queue. *)
Definition has_queue_ok (s : State) : Prop :=
  forall id df,
    _documentDeferreds s !! id = Some df -> is_Some (_documentChanges s !! id).

(** For every key other than [x], a registered deferred that is unsettled
    has a request for that key outstanding. *)
Definition waiting_ok (x : option Z) (s : State) : Prop :=
  forall id df,
    x <> Some id ->
    _documentDeferreds s !! id = Some df ->
    deferredStore s !! df = Some Unsettled ->
    exists request, requests s !! request = Some (mkRequest id false).

(** A registered deferred is a deferred of the store. *)
Definition allocated_ok (s : State) : Prop :=
  forall id df,
    _documentDeferreds s !! id = Some df -> df < length (deferredStore s).

(** For every key other than [x], a key that has a document has no
    registry entry. *)
Definition exclusive_ok (x : option Z) (s : State) : Prop :=
  forall id d,
    x <> Some id ->
    _documents s !! id = Some d -> _documentDeferreds s !! id = None.

(** What the manager keeps true between reactions ([x] is [None]), and
    while it reacts for the key [id] ([x] is [Some id]). *)
Record wf (x : option Z) (s : State) : Prop := mkWf {
  wf_documents : documents_ok s;
  wf_idle : idle_ok s;
  wf_queues : queues_ok s;
  wf_calls : calls_ok s;
  wf_resolved : resolved_ok s;
  wf_has_queue : has_queue_ok s;
  wf_allocated : allocated_ok s;
  wf_waiting : waiting_ok x s;
  wf_exclusive : exclusive_ok x s
}.

(** An outcome that returns in a state of which [P] holds. *)
Definition returns {A} (o : Outcome A) (P : State -> Prop) : Prop :=
  match o with
  | Returns _ s' => P s'
  | _ => False
  end.

(** The changes of [cs], all carrying the id [id], that
    [_handleImageChanged] lets through its [!id] guard: all of them, or
    none when [id] is 0. *)
Definition queuedFor (id : Z) (cs : list Change) : list Change :=
  if falsy (Some id) then [] else cs.

(** The next [getDocument(id)] starts anew: it registers a new unsettled
    deferred, starts an empty queue and issues one request for the entire
    document. *)
Definition startsAnew (id : Z) (s : State) : Prop :=
  exists s',
    getDocument id s = Returns (PromiseOf (length (deferredStore s))) s' /\
    _documentDeferreds s' !! id = Some (length (deferredStore s)) /\
    deferredStore s' !! length (deferredStore s) = Some Unsettled /\
    _documentChanges s' !! id = Some [] /\
    _documents s' !! id = None /\
    requests s' = requests s ++ [mkRequest id false].


End Manager.

(** ** A concrete collaborator

  A document holds the list of the change bodies applied to it, after the
  number of the raw description it was built from; a change whose body is
  0 cannot be applied; no change makes the document emit "closed". *)
Module Sample.

Definition newDocument (raw : Z) : list Z := [raw].

Definition applyChange (content : list Z) (change : @Change Z) : @Applied (list Z) :=
  mkApplied (content ++ [change_body change])
            (negb (Z.eqb (change_body change) 0)) false.

Definition change (id body : Z) : @Change Z := mkChange (Some id) body.

Definition Event := @Event Z Z Z.
Definition State := @State Z Z (list Z).

Definition run (events : list Event) : State -> Outcome unit :=
  run newDocument applyChange events.

Definition after (events : list Event) : State :=
  stateAfter newDocument applyChange events.

(** [getDocument(7)] was called and the request is outstanding. *)
Definition fetching : State := after [CallGetDocument 7].

(** Key 7 is Ready with the document built from the raw description 100;
    the same for key 0. *)
Definition ready7 : State :=
  after [CallGetDocument 7; RequestFulfilled 0 100%Z].
Definition ready0 : State :=
  after [CallGetDocument 0; RequestFulfilled 0 100%Z].

(** Key 7 was Ready, a change arrived that could not be applied, and the
    request issued by [_resetDocument] is outstanding. *)
Definition refetching : State :=
  after [CallGetDocument 7; RequestFulfilled 0 100%Z; ImageChanged (change 7 0)].

(** The request of [fetching] has just delivered its document while the
    changes 5, 0 and 6 were queued: the state in which the success
    callback calls [_processNextChange]. *)
Definition draining : State :=
  mkState {[ 7%Z := 0 ]} {[ 7%Z := 0 ]}
          {[ 7%Z := [change 7 5; change 7 0; change 7 6] ]}
          [mkDocumentObj [100%Z] 7] [Unsettled] [mkRequest 7 true] [] [].

(** A second collaborator: as the first, but a change whose body is not
    positive cannot be applied, and a change whose body is 9 or -9 makes the
    document emit "closed". *)
Definition applyChangeClosing (content : list Z) (change : @Change Z)
    : @Applied (list Z) :=
  mkApplied (content ++ [change_body change])
            (Z.ltb 0 (change_body change))
            (Z.eqb (Z.abs (change_body change)) 9).

(** Changes for key 7 arrived while its first request was outstanding, and
    the request has just delivered its document. *)
Definition drainingThen (bodies : list Z) : State :=
  mkState {[ 7%Z := 0 ]} {[ 7%Z := 0 ]}
          {[ 7%Z := map (change 7) bodies ]}
          [mkDocumentObj [100%Z] 7] [Unsettled] [mkRequest 7 true] [] [].

(** [getDocument(7)] has been called, and two changes for key 7 have
    arrived while its request is outstanding. *)
Definition queued95 : State :=
  after [CallGetDocument 7; ImageChanged (change 7 9); ImageChanged (change 7 5)].

(** Key 7 is Ready and one change has been applied to its document. *)
Definition changed : State :=
  after [CallGetDocument 7; RequestFulfilled 0 100%Z; ImageChanged (change 7 5)].

(** Keys 7 and 8 are Ready. *)
Definition twoKeys : State :=
  after [CallGetDocument 7; CallGetDocument 8;
         RequestFulfilled 0 100%Z; RequestFulfilled 1 200%Z].

End Sample.

Section Proofs.

Context {Payload Raw Err Content : Type}.
Variable newDocument : Raw -> Content.
Variable applyChange : Content -> @Change Payload -> @Applied Content.

Local Abbreviation State := (@State Payload Err Content).
Local Abbreviation Change := (@Change Payload).
Local Abbreviation Event := (@Event Payload Raw Err).
Local Abbreviation M := (@M Payload Err Content).
Local Abbreviation DocumentObj := (@DocumentObj Content).
Local Abbreviation _processNextChange_fuel := (_processNextChange_fuel applyChange).
Local Abbreviation _processNextChange := (_processNextChange applyChange).
Local Abbreviation callApplyChange := (callApplyChange applyChange).
Local Abbreviation _handleImageChanged := (_handleImageChanged applyChange).
Local Abbreviation _resetDocument_fulfilled :=
  (_resetDocument_fulfilled newDocument applyChange).
Local Abbreviation react := (react newDocument applyChange).
Local Abbreviation run := (run newDocument applyChange).
Local Abbreviation applyAll := (applyAll applyChange).
Local Abbreviation allApplied := (allApplied applyChange).

Ltac unfold_monad :=
  unfold mbind, M_bind, bind, mret, M_ret, ret, get, modify, throwTypeError.

Ltac simpl_state :=
  cbn [with_documents with_documentDeferreds with_documentChanges
       with_docStore with_deferredStore with_requests with_applyCalls
       with_logger
       _documents _documentDeferreds _documentChanges docStore deferredStore
       requests applyCalls logger].

Ltac simpl_state_in H :=
  cbn [with_documents with_documentDeferreds with_documentChanges
       with_docStore with_deferredStore with_requests with_applyCalls
       with_logger
       _documents _documentDeferreds _documentChanges docStore deferredStore
       requests applyCalls logger] in H.

(** Two states with the same fields are the same state. *)
Lemma state_ext (s1 s2 : State) :
  _documents s1 = _documents s2 ->
  _documentDeferreds s1 = _documentDeferreds s2 ->
  _documentChanges s1 = _documentChanges s2 ->
  docStore s1 = docStore s2 ->
  deferredStore s1 = deferredStore s2 ->
  requests s1 = requests s2 ->
  applyCalls s1 = applyCalls s2 ->
  logger s1 = logger s2 ->
  s1 = s2.
Proof. destruct s1, s2. cbn. by intros -> -> -> -> -> -> -> ->. Qed.

Ltac state_eq := f_equal; apply state_ext; simpl_state.

Lemma falsy_spec (id : option Z) :
  falsy id = true <-> id = None \/ id = Some 0%Z.
Proof.
  destruct id as [n|]; cbn.
  - rewrite Z.eqb_eq. split; [intros ->; by right | intros [?|?]; congruence].
  - split; [by left | done].
Qed.

(** C9: a change whose id is falsy, that is absent or the number 0, is
    logged as a warning and dropped: [_handleImageChanged] returns the state
    it got with one more warning in the log and nothing else changed. *)
Theorem handleImageChanged_falsy_id (change : Change) (s : State) :
  change_id change = None \/ change_id change = Some 0%Z ->
  _handleImageChanged change s
  = Returns tt (with_logger (fun l => l ++ [WarnUnknownDocument change]) s).
Proof.
  intros Hf%falsy_spec. unfold DocumentManager._handleImageChanged.
  destruct (change_id change) as [id|]; [|reflexivity].
  rewrite Hf. reflexivity.
Qed.

(** C8: a change for a key that has neither a document nor a deferred is
    dropped: [_handleImageChanged] returns, and the three dictionaries,
    the stores of documents and deferreds, the requests and the record of
    [_applyChange] calls are what they were. *)
Theorem handleImageChanged_unknown_key (change : Change) (id : Z) (s : State) :
  change_id change = Some id ->
  _documents s !! id = None ->
  _documentDeferreds s !! id = None ->
  exists s',
    _handleImageChanged change s = Returns tt s' /\
    _documents s' = _documents s /\
    _documentDeferreds s' = _documentDeferreds s /\
    _documentChanges s' = _documentChanges s /\
    docStore s' = docStore s /\
    deferredStore s' = deferredStore s /\
    requests s' = requests s /\
    applyCalls s' = applyCalls s.
Proof.
  intros Hid Hdoc Hdef. unfold DocumentManager._handleImageChanged.
  rewrite Hid. destruct (falsy (Some id)).
  - eexists. split; [reflexivity|]. cbn. done.
  - exists s. unfold_monad. rewrite Hdoc, Hdef. cbn. done.
Qed.

(** What [_initDocument(id)] leaves behind. *)
Lemma initDocument_returns (id : Z) (s : State) :
  _initDocument id s
  = Returns (length (deferredStore s))
      (mkState (delete id (_documents s))
               (<[id := length (deferredStore s)]> (_documentDeferreds s))
               (<[id := []]> (_documentChanges s))
               (docStore s)
               (deferredStore s ++ [Unsettled])
               (requests s ++ [mkRequest id false])
               (applyCalls s) (logger s)).
Proof. reflexivity. Qed.

(** C3: [getDocument(id)] returns the promise of the registered deferred
    when there is one, and changes nothing; otherwise, when the key has a
    document, a promise already fulfilled with it, and changes nothing;
    otherwise it registers a new unsettled deferred, issues one request
    for the entire document and returns the promise of that deferred,
    which is also what every further call gets while the deferred stays
    registered. *)
Theorem getDocument_contract (id : Z) (s : State) :
  (forall df, _documentDeferreds s !! id = Some df ->
     getDocument id s = Returns (PromiseOf df) s) /\
  (forall d, _documentDeferreds s !! id = None ->
     _documents s !! id = Some d ->
     getDocument id s = Returns (FulfilledWith d) s) /\
  (_documentDeferreds s !! id = None ->
   _documents s !! id = None ->
   exists s',
     getDocument id s = Returns (PromiseOf (length (deferredStore s))) s' /\
     _documentDeferreds s' = <[id := length (deferredStore s)]> (_documentDeferreds s) /\
     deferredStore s' = deferredStore s ++ [Unsettled] /\
     requests s' = requests s ++ [mkRequest id false] /\
     _documentChanges s' = <[id := []]> (_documentChanges s) /\
     _documents s' = _documents s /\
     getDocument id s' = Returns (PromiseOf (length (deferredStore s))) s').
Proof.
  split; [|split].
  - intros df Hdf. unfold getDocument. unfold_monad. by rewrite Hdf.
  - intros d Hdf Hd. unfold getDocument. unfold_monad. by rewrite Hdf, Hd.
  - intros Hdf Hd. eexists. split.
    + unfold getDocument. unfold_monad. rewrite Hdf, Hd.
      rewrite initDocument_returns. reflexivity.
    + cbn. repeat split; try done.
      * by rewrite delete_id.
      * unfold getDocument. unfold_monad. cbn.
        by rewrite lookup_insert_eq.
Qed.

(** What "closed" emitted by the document of a key does, and what the
    next [getDocument] does then. *)
Lemma closed_clears (id : Z) (d : DocRef) (obj : DocumentObj) (s : State) :
  _documents s !! id = Some d ->
  docStore s !! d = Some obj ->
  doc_listener obj = id ->
  exists s',
    react (DocumentClosed d) s = Returns tt s' /\
    _documents s' !! id = None /\
    _documentChanges s' !! id = None /\
    _documentDeferreds s' !! id = None /\
    (forall df, _documentDeferreds s !! id = Some df ->
       deferredStore s !! df = Some Unsettled ->
       deferredStore s' !! df = Some (Rejected None)) /\
    (_documentDeferreds s !! id = None -> deferredStore s' = deferredStore s) /\
    exists s'',
      getDocument id s' = Returns (PromiseOf (length (deferredStore s'))) s'' /\
      _documentDeferreds s'' !! id = Some (length (deferredStore s')) /\
      deferredStore s'' !! length (deferredStore s') = Some Unsettled /\
      _documentChanges s'' !! id = Some [] /\
      _documents s'' !! id = None /\
      requests s'' = requests s ++ [mkRequest id false].
Proof.
  intros Hd Hobj Hl. subst id.
  unfold DocumentManager.react. unfold_monad. rewrite Hobj.
  unfold closedListener. unfold_monad. cbn.
  destruct (_documentDeferreds s !! doc_listener obj) as [df|] eqn:Hdf.
  - eexists. split; [reflexivity|]. cbn.
    rewrite !lookup_delete_eq.
    split; [done|]. split; [done|]. split; [done|].
    split.
    { intros df' [= <-] Hu. unfold settled. rewrite Hu.
      apply list_lookup_insert_eq.
      by eapply lookup_lt_Some. }
    split; [done|].
    eexists. split.
    { unfold getDocument. unfold_monad. cbn. rewrite !lookup_delete_eq.
      rewrite initDocument_returns. reflexivity. }
    cbn. rewrite !lookup_insert_eq, lookup_delete_eq.
    repeat split; try done.
    by rewrite lookup_app_r, Nat.sub_diag.
  - eexists. split; [reflexivity|]. cbn.
    rewrite !lookup_delete_eq, Hdf.
    split; [done|]. split; [done|]. split; [done|].
    split; [done|]. split; [done|].
    eexists. split.
    { unfold getDocument. unfold_monad. cbn. rewrite Hdf, lookup_delete_eq.
      rewrite initDocument_returns. reflexivity. }
    cbn. rewrite !lookup_insert_eq, lookup_delete_eq.
    repeat split; try done.
    by rewrite lookup_app_r, Nat.sub_diag.
Qed.

(** C1 (what the code does): when the request for a key fails while an
    unsettled deferred is registered for it, the deferred is rejected with
    the error but stays registered, so the next [getDocument(id)] returns
    the promise of that rejected deferred and issues no request. *)
Theorem fetch_failure_keeps_deferred
    (id : Z) (request : RequestRef) (df : DeferredRef) (err : Err) (s : State) :
  requests s !! request = Some (mkRequest id false) ->
  _documentDeferreds s !! id = Some df ->
  deferredStore s !! df = Some Unsettled ->
  exists s',
    react (RequestRejected request err) s = Returns tt s' /\
    deferredStore s' !! df = Some (Rejected (Some err)) /\
    _documentDeferreds s' !! id = Some df /\
    getDocument id s' = Returns (PromiseOf df) s' /\
    length (requests s') = length (requests s).
Proof.
  intros Hr Hdf Hu.
  unfold DocumentManager.react, settleRequest. unfold_monad. rewrite Hr. cbn.
  unfold _resetDocument_rejected, log. unfold_monad. cbn. rewrite Hdf.
  eexists. split; [reflexivity|]. cbn.
  split.
  { unfold settled. rewrite Hu. apply list_lookup_insert_eq.
    by eapply lookup_lt_Some. }
  split; [done|]. split.
  - unfold getDocument. unfold_monad. cbn. by rewrite Hdf.
  - by rewrite length_insert.
Qed.

(** C10 (what the code does): when "closed" is emitted for a key whose
    request is outstanding and the request then fails, the failure
    callback finds no registry entry for the key and throws a TypeError. *)
Theorem closed_then_failure_throws
    (id : Z) (request : RequestRef) (d : DocRef) (obj : DocumentObj)
    (err : Err) (s : State) :
  requests s !! request = Some (mkRequest id false) ->
  docStore s !! d = Some obj ->
  doc_listener obj = id ->
  exists s',
    run [DocumentClosed d; RequestRejected request err] s = TypeError s' /\
    _documentDeferreds s' !! id = None.
Proof.
  intros Hr Hobj Hl. subst id.
  unfold DocumentManager.run, DocumentManager.react. unfold_monad. rewrite Hobj.
  unfold closedListener. unfold_monad. cbn.
  destruct (_documentDeferreds s !! doc_listener obj) as [df|] eqn:Hdf.
  - unfold settleRequest. unfold_monad. cbn. rewrite Hr. cbn.
    unfold _resetDocument_rejected, log. unfold_monad. cbn.
    rewrite lookup_delete_eq. eexists. split; [reflexivity|].
    cbn. by rewrite lookup_delete_eq.
  - unfold settleRequest. unfold_monad. cbn. rewrite Hr. cbn.
    unfold _resetDocument_rejected, log. unfold_monad. cbn.
    rewrite Hdf. eexists. split; [reflexivity|]. done.
Qed.

(** ** Processing the queue *)

Lemma documentObj_eta (obj : DocumentObj) :
  mkDocumentObj (doc_content obj) (doc_listener obj) = obj.
Proof. by destruct obj. Qed.

(** One call of [_processNextChange] on an empty queue settles the
    deferred with the document of the key and unregisters it. *)
Lemma processNextChange_fuel_empty (n : nat) (id : Z) (df : DeferredRef) (s : State) :
  _documentChanges s !! id = Some [] ->
  _documentDeferreds s !! id = Some df ->
  _processNextChange_fuel (S n) id s
  = Returns tt
      (mkState (_documents s) (delete id (_documentDeferreds s)) (_documentChanges s)
               (docStore s)
               (settled df (Resolved (_documents s !! id)) (deferredStore s))
               (requests s) (applyCalls s) (logger s)).
Proof.
  intros Hq Hdf. cbn. unfold_monad. by rewrite Hq, Hdf.
Qed.

(** One call on a queue whose first change is applied, the document
    staying open: the change is shifted, logged and applied, and the next
    call starts. *)
Lemma processNextChange_fuel_applied
    (n : nat) (id : Z) (d : DocRef) (obj : DocumentObj) (df : DeferredRef)
    (c : Change) (rest : list Change) (s : State) :
  _documents s !! id = Some d ->
  docStore s !! d = Some obj ->
  _documentDeferreds s !! id = Some df ->
  _documentChanges s !! id = Some (c :: rest) ->
  applied_success (applyChange (doc_content obj) c) = true ->
  applied_closed (applyChange (doc_content obj) c) = false ->
  _processNextChange_fuel (S n) id s
  = _processNextChange_fuel n id
      (mkState (_documents s) (_documentDeferreds s)
               (<[id := rest]> (_documentChanges s))
               (<[d := mkDocumentObj
                         (applied_content (applyChange (doc_content obj) c))
                         (doc_listener obj)]> (docStore s))
               (deferredStore s) (requests s)
               (applyCalls s ++ [(d, c)])
               (logger s ++ [DebugApplyingChange c])).
Proof.
  intros Hd Hobj Hdf Hq Hok Hopen. cbn. unfold_monad.
  rewrite Hq, Hdf, Hd. cbn.
  unfold DocumentManager.callApplyChange, log. unfold_monad. cbn.
  rewrite Hobj. cbn. rewrite Hopen, Hok. reflexivity.
Qed.


Lemma allApplied_cons (content : Content) (c : Change) (cs : list Change) :
  allApplied content (c :: cs) = true <->
  applied_success (applyChange content c) = true /\
  applied_closed (applyChange content c) = false /\
  allApplied (applied_content (applyChange content c)) cs = true.
Proof.
  cbn. rewrite !andb_true_iff, negb_true_iff. tauto.
Qed.

(** The calls that process a prefix of the queue whose changes are all
    applied: the changes are applied to the document in queue order and
    the rest of the queue is left for the next call. *)
Lemma processNextChange_fuel_prefix
    (id : Z) (d : DocRef) (df : DeferredRef) (pre : list Change) :
  forall (n : nat) (obj : DocumentObj) (rest : list Change) (s : State),
    _documents s !! id = Some d ->
    docStore s !! d = Some obj ->
    _documentDeferreds s !! id = Some df ->
    _documentChanges s !! id = Some (pre ++ rest) ->
    allApplied (doc_content obj) pre = true ->
    _processNextChange_fuel (length pre + n) id s
    = _processNextChange_fuel n id
        (mkState (_documents s) (_documentDeferreds s)
                 (<[id := rest]> (_documentChanges s))
                 (<[d := mkDocumentObj (applyAll (doc_content obj) pre)
                                       (doc_listener obj)]> (docStore s))
                 (deferredStore s) (requests s)
                 (applyCalls s ++ map (pair d) pre)
                 (logger s ++ map DebugApplyingChange pre)).
Proof.
  induction pre as [|c pre IH]; intros n obj rest s Hd Hobj Hdf Hq Hall.
  - cbn [length map Nat.add DocumentManager.applyAll foldl].
    rewrite !app_nil_r, documentObj_eta.
    rewrite (insert_id _ _ _ Hq), (list_insert_id _ _ _ Hobj).
    by destruct s.
  - apply allApplied_cons in Hall as (Hok & Hopen & Hall).
    cbn [length Nat.add].
    rewrite (processNextChange_fuel_applied _ _ _ _ _ _ _ _ Hd Hobj Hdf Hq Hok Hopen).
    assert (Hlt : d < length (docStore s)) by by eapply lookup_lt_Some.
    erewrite IH; cycle 1.
    + exact Hd.
    + simpl_state. by apply list_lookup_insert_eq.
    + exact Hdf.
    + simpl_state. by rewrite lookup_insert_eq.
    + exact Hall.
    + state_eq; cbn [doc_content doc_listener map]; try done.
      * by rewrite insert_insert_eq.
      * by rewrite list_insert_insert_eq.
      * by rewrite <- app_assoc.
      * by rewrite <- app_assoc.
Qed.

Lemma queued_lookup (id : Z) (cs : list Change) (s : State) :
  _documentChanges s !! id = Some cs -> queued id s = length cs.
Proof. unfold queued. by intros ->. Qed.

(** [_processNextChange] on a queue whose changes are all applied: every
    change is applied, in queue order, the queue ends empty, and the
    deferred is settled with the document and unregistered. *)
Lemma processNextChange_all_applied
    (id : Z) (d : DocRef) (df : DeferredRef) (obj : DocumentObj)
    (cs : list Change) (s : State) :
  _documents s !! id = Some d ->
  docStore s !! d = Some obj ->
  _documentDeferreds s !! id = Some df ->
  _documentChanges s !! id = Some cs ->
  allApplied (doc_content obj) cs = true ->
  _processNextChange id s
  = Returns tt
      (mkState (_documents s) (delete id (_documentDeferreds s))
               (<[id := []]> (_documentChanges s))
               (<[d := mkDocumentObj (applyAll (doc_content obj) cs)
                                     (doc_listener obj)]> (docStore s))
               (settled df (Resolved (Some d)) (deferredStore s))
               (requests s)
               (applyCalls s ++ map (pair d) cs)
               (logger s ++ map DebugApplyingChange cs)).
Proof.
  intros Hd Hobj Hdf Hq Hall. unfold DocumentManager._processNextChange.
  rewrite (queued_lookup _ _ _ Hq).
  replace (S (length cs)) with (length cs + 1) by lia.
  rewrite <- (app_nil_r cs) in Hq.
  rewrite (processNextChange_fuel_prefix _ _ _ _ _ _ _ _ Hd Hobj Hdf Hq Hall).
  rewrite processNextChange_fuel_empty with (df := df).
  - state_eq; try done. by rewrite Hd.
  - simpl_state. by rewrite lookup_insert_eq.
  - done.
Qed.


Lemma falsy_nonzero (id : Z) : id <> 0%Z -> falsy (Some id) = false.
Proof. intros Hne. cbn. by apply Z.eqb_neq. Qed.

Lemma settled_fresh (v : Settlement) (h : list (@Settlement Err)) :
  settled (length h) v (h ++ [Unsettled]) = h ++ [v].
Proof.
  unfold settled. rewrite lookup_app_r, Nat.sub_diag by lia. cbn.
  rewrite insert_app_r_alt, Nat.sub_diag by lia. done.
Qed.

(** A change for a Ready key with a nonzero id, applied by the document:
    [_handleImageChanged] queues it, registers a deferred, applies the
    change, resolves the deferred with the document and unregisters it. *)
Lemma handleImageChanged_ready
    (id : Z) (d : DocRef) (obj : DocumentObj) (c : Change) (s : State) :
  id <> 0%Z ->
  change_id c = Some id ->
  ready id d s ->
  docStore s !! d = Some obj ->
  applied_success (applyChange (doc_content obj) c) = true ->
  applied_closed (applyChange (doc_content obj) c) = false ->
  _handleImageChanged c s
  = Returns tt
      (mkState (_documents s) (_documentDeferreds s)
               (<[id := []]> (_documentChanges s))
               (<[d := mkDocumentObj
                         (applied_content (applyChange (doc_content obj) c))
                         (doc_listener obj)]> (docStore s))
               (deferredStore s ++ [Resolved (Some d)])
               (requests s)
               (applyCalls s ++ [(d, c)])
               (logger s ++ [DebugApplyingChange c])).
Proof.
  intros Hne Hid (Hd & Hdf & Hq) Hobj Hok Hopen.
  unfold DocumentManager._handleImageChanged.
  rewrite Hid, (falsy_nonzero _ Hne). unfold_monad.
  rewrite Hdf, Hd.
  rewrite (bool_decide_eq_true_2 (None = None)) by done.
  rewrite (bool_decide_eq_false_2 (Some d = None)) by done.
  cbn [andb].
  assert (Hall : allApplied (doc_content obj) [c] = true).
  { apply allApplied_cons. by repeat split. }
  assert (Hdel : delete id (<[id := length (deferredStore s)]> (_documentDeferreds s))
                 = _documentDeferreds s).
  { by rewrite delete_insert_eq, delete_id. }
  unfold queued in Hq.
  destruct (_documentChanges s !! id) as [q|] eqn:Hqs.
  - apply length_zero_iff_nil in Hq. subst q.
    rewrite (bool_decide_eq_false_2 (Some [] = None)) by done.
    cbn [modify]. rewrite Hqs. cbn [default from_option Datatypes.id app length Nat.eqb andb].
    simpl_state. rewrite Hdf.
    rewrite (bool_decide_eq_true_2 (None = None)) by done.
    rewrite Hd. unfold defer. unfold_monad. simpl_state.
    erewrite processNextChange_all_applied; cycle 1.
    + exact Hd.
    + exact Hobj.
    + simpl_state. by rewrite lookup_insert_eq.
    + simpl_state. by rewrite lookup_insert_eq.
    + exact Hall.
    + state_eq; try done.
      * by rewrite insert_insert_eq.
      * by rewrite settled_fresh.
  - rewrite (bool_decide_eq_true_2 (None = None)) by done.
    simpl_state. rewrite lookup_insert_eq. cbn [default from_option Datatypes.id app length Nat.eqb andb].
    rewrite Hdf.
    rewrite (bool_decide_eq_true_2 (None = None)) by done.
    rewrite Hd. unfold defer. unfold_monad. simpl_state.
    erewrite processNextChange_all_applied; cycle 1.
    + exact Hd.
    + exact Hobj.
    + simpl_state. by rewrite lookup_insert_eq.
    + simpl_state. by rewrite lookup_insert_eq.
    + exact Hall.
    + state_eq; try done.
      * by rewrite !insert_insert_eq.
      * by rewrite settled_fresh.
Qed.

Lemma run_cons (e : Event) (events : list Event) (s s1 : State) :
  react e s = Returns tt s1 ->
  run (e :: events) s = run events s1.
Proof.
  intros H. cbn [DocumentManager.run]. unfold_monad. by rewrite H.
Qed.

Lemma run_app (events1 events2 : list Event) (s s1 : State) :
  run events1 s = Returns tt s1 ->
  run (events1 ++ events2) s = run events2 s1.
Proof.
  revert s. induction events1 as [|e events1 IH]; intros s.
  - cbn. unfold_monad. by intros [= ->].
  - cbn [DocumentManager.run app]. unfold_monad.
    destruct (react e s) as [[] s2| |]; [|done..].
    apply IH.
Qed.

(** C2, amended: for every key other than 0 that is Ready, changes
    delivered one at a time, each of them reported as applied while the
    document stays open, make exactly one [_applyChange] call each on the
    document of the key, in the order of delivery, leave the document with
    the contents of their sequential application, and leave the key
    Ready; and [_processNextChange] applies the changes of a queue in queue
    order, from its front. *)
Theorem changes_applied_in_order_nonzero (id : Z) :
  id <> 0%Z ->
  changes_applied_in_order (Err := Err) newDocument applyChange id.
Proof.
  intros Hne. split.
  - intros s d obj cs. revert s obj.
    induction cs as [|c cs IH]; intros s obj Hready Hobj Hfor Hall.
    + exists s. cbn. rewrite app_nil_r, Hobj. done.
    + apply allApplied_cons in Hall as (Hok & Hopen & Hall).
      cbn in Hfor. apply andb_true_iff in Hfor as [Hid Hfor].
      apply bool_decide_eq_true_1 in Hid.
      pose proof (handleImageChanged_ready _ _ _ _ _ Hne Hid Hready Hobj Hok Hopen)
        as Hstep.
      assert (Hlt : d < length (docStore s)) by by eapply lookup_lt_Some.
      destruct Hready as (Hd & Hdf & _).
      set (obj1 := mkDocumentObj
                     (applied_content (applyChange (doc_content obj) c))
                     (doc_listener obj)) in *.
      match type of Hstep with _ = Returns tt ?s1 =>
        destruct (IH s1 obj1) as (s' & Hrun & Hcalls & Hcontent & Hready')
      end.
      * repeat split; simpl_state; [exact Hd | exact Hdf |].
        unfold queued. simpl_state. by rewrite lookup_insert_eq.
      * simpl_state. by apply list_lookup_insert_eq.
      * exact Hfor.
      * exact Hall.
      * exists s'. split; [|split; [|split]].
        -- cbn [map]. erewrite run_cons; [exact Hrun | exact Hstep].
        -- rewrite Hcalls. simpl_state. cbn [map]. by rewrite <- app_assoc.
        -- rewrite Hcontent. reflexivity.
        -- exact Hready'.
  - intros s d obj df cs Hd Hobj Hdf Hq Hall.
    eexists. split; [by eapply processNextChange_all_applied|].
    simpl_state. split; [done|]. split.
    + rewrite list_lookup_insert_eq by by eapply lookup_lt_Some. done.
    + by rewrite lookup_insert_eq.
Qed.

(** A change with a nonzero id for a key that has a registered deferred
    is appended to the queue of the key, and nothing else happens. *)
Lemma handleImageChanged_pending
    (id : Z) (df : DeferredRef) (q : list Change) (c : Change) (s : State) :
  id <> 0%Z ->
  change_id c = Some id ->
  _documentDeferreds s !! id = Some df ->
  _documentChanges s !! id = Some q ->
  _handleImageChanged c s
  = Returns tt (with_documentChanges (<[id := q ++ [c]]>) s).
Proof.
  intros Hne Hid Hdf Hq.
  unfold DocumentManager._handleImageChanged.
  rewrite Hid, (falsy_nonzero _ Hne). unfold_monad.
  rewrite Hdf, Hq.
  rewrite (bool_decide_eq_false_2 (Some df = None)) by done.
  rewrite (bool_decide_eq_false_2 (Some q = None)) by done.
  cbn [andb]. rewrite Hq. cbn [default from_option Datatypes.id].
  simpl_state. rewrite Hdf.
  rewrite (bool_decide_eq_false_2 (Some df = None)) by done.
  by rewrite andb_false_r.
Qed.

(** Changes delivered while a deferred is registered pile up in the queue
    in the order of delivery. *)
Lemma run_changes_pending (id : Z) (df : DeferredRef) (cs : list Change) :
  forall (q : list Change) (s : State),
    id <> 0%Z ->
    allFor id cs = true ->
    _documentDeferreds s !! id = Some df ->
    _documentChanges s !! id = Some q ->
    run (map ImageChanged cs) s
    = Returns tt (with_documentChanges (<[id := q ++ cs]>) s).
Proof.
  induction cs as [|c cs IH]; intros q s Hne Hfor Hdf Hq.
  - cbn. unfold_monad. state_eq; try done.
    by rewrite app_nil_r, insert_id.
  - cbn in Hfor. apply andb_true_iff in Hfor as [Hid Hfor].
    apply bool_decide_eq_true_1 in Hid.
    cbn [map]. erewrite run_cons;
      [|unfold DocumentManager.react; by eapply handleImageChanged_pending].
    erewrite IH; [| done | done | by simpl_state
                  | simpl_state; by rewrite lookup_insert_eq].
    state_eq; try done.
    by rewrite insert_insert_eq, <- app_assoc.
Qed.

(** An outstanding request for a key with a registered deferred delivers
    the raw document, and the queued changes are all applied to the new
    document: the document is built and installed, the changes are
    applied in queue order, and the deferred is resolved with the new
    document and unregistered. *)
Lemma request_fulfilled_all_applied
    (id : Z) (request : RequestRef) (df : DeferredRef) (raw : Raw)
    (cs : list Change) (s : State) :
  requests s !! request = Some (mkRequest id false) ->
  _documentDeferreds s !! id = Some df ->
  _documentChanges s !! id = Some cs ->
  allApplied (newDocument raw) cs = true ->
  react (RequestFulfilled request raw) s
  = Returns tt
      (mkState (<[id := length (docStore s)]> (_documents s))
               (delete id (_documentDeferreds s))
               (<[id := []]> (_documentChanges s))
               (docStore s ++ [mkDocumentObj (applyAll (newDocument raw) cs) id])
               (settled df (Resolved (Some (length (docStore s)))) (deferredStore s))
               (<[request := mkRequest id true]> (requests s))
               (applyCalls s ++ map (pair (length (docStore s))) cs)
               (logger s ++ map DebugApplyingChange cs)).
Proof.
  intros Hr Hdf Hq Hall.
  unfold DocumentManager.react, settleRequest. unfold_monad. rewrite Hr.
  unfold DocumentManager._resetDocument_fulfilled. unfold_monad. simpl_state.
  erewrite processNextChange_all_applied; cycle 1.
  - simpl_state. by rewrite lookup_insert_eq.
  - simpl_state. by rewrite lookup_app_r, Nat.sub_diag.
  - simpl_state. exact Hdf.
  - simpl_state. exact Hq.
  - exact Hall.
  - state_eq; cbn [doc_content doc_listener]; try done.
    by rewrite insert_app_r_alt, Nat.sub_diag.
Qed.

(** Changes whose id is falsy are dropped one after the other, each with
    a warning. *)
Lemma run_changes_dropped (id : Z) (cs : list Change) :
  forall s : State,
    falsy (Some id) = true ->
    allFor id cs = true ->
    run (map ImageChanged cs) s
    = Returns tt (with_logger (fun l => l ++ map WarnUnknownDocument cs) s).
Proof.
  induction cs as [|c cs IH]; intros s Hf Hfor.
  - cbn. unfold_monad. state_eq; try done. by rewrite app_nil_r.
  - cbn in Hfor. apply andb_true_iff in Hfor as [Hid Hfor].
    apply bool_decide_eq_true_1 in Hid.
    cbn [map]. erewrite run_cons; cycle 1.
    { cbn [DocumentManager.react]. unfold DocumentManager._handleImageChanged.
      rewrite Hid, Hf. reflexivity. }
    rewrite IH by done. state_eq; try done.
    cbn [map]. by rewrite <- app_assoc.
Qed.

(** Changes for a key delivered while a deferred is registered for it:
    those that pass the [!id] guard pile up in the queue in the order of
    delivery, and nothing else but the log changes. *)
Lemma run_changes_waiting
    (id : Z) (df : DeferredRef) (q cs : list Change) (s : State) :
  _documentDeferreds s !! id = Some df ->
  _documentChanges s !! id = Some q ->
  allFor id cs = true ->
  exists s',
    run (map ImageChanged cs) s = Returns tt s' /\
    _documents s' = _documents s /\
    _documentDeferreds s' = _documentDeferreds s /\
    _documentChanges s' = <[id := q ++ queuedFor id cs]> (_documentChanges s) /\
    docStore s' = docStore s /\
    deferredStore s' = deferredStore s /\
    requests s' = requests s /\
    applyCalls s' = applyCalls s.
Proof.
  intros Hdf Hq Hfor. unfold queuedFor.
  destruct (falsy (Some id)) eqn:Hf.
  - eexists. split; [by apply (run_changes_dropped id)|]. simpl_state.
    repeat split; try done. by rewrite app_nil_r, insert_id.
  - eexists. split.
    + apply (run_changes_pending id df cs q s); try done.
      intros ->. cbn in Hf. discriminate Hf.
    + simpl_state. by repeat split.
Qed.


(** C6, amended: when "closed" is emitted for a key whose request is
    outstanding, the registered unsettled deferred is rejected and
    unregistered and the queue is dropped; when the request then delivers
    the raw document, the document built from it is installed for the key,
    with no queue and no registry entry for the key and no deferred
    created or resolved by that delivery. *)
Theorem late_result_installed
    (id : Z) (request : RequestRef) (d : DocRef) (obj : DocumentObj)
    (df : DeferredRef) (raw : Raw) (s : State) :
  requests s !! request = Some (mkRequest id false) ->
  docStore s !! d = Some obj ->
  doc_listener obj = id ->
  _documentDeferreds s !! id = Some df ->
  deferredStore s !! df = Some Unsettled ->
  exists s',
    run [DocumentClosed d; RequestFulfilled request raw] s = Returns tt s' /\
    deferredStore s' = <[df := Rejected None]> (deferredStore s) /\
    deferredStore s' !! df = Some (Rejected None) /\
    _documentDeferreds s' !! id = None /\
    _documentChanges s' !! id = None /\
    _documents s' !! id = Some (length (docStore s)) /\
    docStore s' !! length (docStore s) = Some (mkDocumentObj (newDocument raw) id).
Proof.
  intros Hr Hobj Hl Hdf Hu. subst id.
  unfold DocumentManager.run, DocumentManager.react. unfold_monad. rewrite Hobj.
  unfold closedListener. unfold_monad. simpl_state. rewrite Hdf.
  unfold settle. unfold_monad. simpl_state.
  unfold settleRequest. unfold_monad. simpl_state. rewrite Hr.
  unfold DocumentManager._resetDocument_fulfilled. unfold_monad. simpl_state.
  unfold DocumentManager._processNextChange, queued. simpl_state.
  rewrite lookup_delete_eq.
  cbn [DocumentManager._processNextChange_fuel]. unfold_monad. simpl_state.
  rewrite lookup_delete_eq.
  eexists. split; [reflexivity|]. simpl_state.
  unfold settled. rewrite Hu.
  split; [done|].
  split; [apply list_lookup_insert_eq; by eapply lookup_lt_Some|].
  rewrite !lookup_delete_eq, lookup_insert_eq.
  repeat split; try done.
  by rewrite lookup_app_r, Nat.sub_diag.
Qed.

(** ** The registry of deferreds *)

Lemma settled_length (df : DeferredRef) (v : Settlement) (h : list (@Settlement Err)) :
  length (settled df v h) = length h.
Proof.
  unfold settled. destruct (h !! df) as [[]|]; try done.
  apply length_insert.
Qed.

Lemma settled_lookup_unsettled
    (df x : DeferredRef) (v : Settlement) (h : list (@Settlement Err)) :
  v <> Unsettled ->
  settled df v h !! x = Some Unsettled ->
  h !! x = Some Unsettled /\ x <> df.
Proof.
  intros Hv. unfold settled.
  destruct (h !! df) as [st|] eqn:Hdf.
  - destruct st.
    + destruct (decide (x = df)) as [->|Hne].
      * rewrite list_lookup_insert_eq by by eapply lookup_lt_Some. congruence.
      * rewrite list_lookup_insert_ne by done. done.
    + intros Hx. split; [done|]. intros ->. congruence.
    + intros Hx. split; [done|]. intros ->. congruence.
  - intros Hx. split; [done|]. intros ->. congruence.
Qed.

Lemma evolves_refl (s : State) : evolves s s.
Proof. by split. Qed.

Lemma evolves_trans (s1 s2 s3 : State) :
  evolves s1 s2 -> evolves s2 s3 -> evolves s1 s3.
Proof. intros [H1 H1'] [H2 H2']. split; eauto. Qed.

Lemma calm_refl (s : State) : calm s s.
Proof. split; [apply evolves_refl | done]. Qed.

Lemma calm_trans (s1 s2 s3 : State) :
  calm s1 s2 -> calm s2 s3 -> calm s1 s3.
Proof.
  intros [H1 H1'] [H2 H2']. split; [by eapply evolves_trans|].
  intros id. specialize (H1' id). specialize (H2' id). lia.
Qed.

(** A step that touches neither the registry nor the deferreds. *)
Lemma evolves_same (s s' : State) :
  _documentDeferreds s' = _documentDeferreds s ->
  deferredStore s' = deferredStore s ->
  evolves s s'.
Proof.
  intros Hreg Hst. split.
  - intros [H1 H2 H3]. split.
    + intros df. rewrite Hst, Hreg. apply H1.
    + intros id df. rewrite Hst, Hreg. apply H2.
    + intros id1 id2 df. rewrite Hreg. apply H3.
  - intros id df. by rewrite Hreg.
Qed.

(** A step that settles a deferred. *)
Lemma evolves_settle (df : DeferredRef) (v : Settlement) (s s' : State) :
  v <> Unsettled ->
  _documentDeferreds s' = _documentDeferreds s ->
  deferredStore s' = settled df v (deferredStore s) ->
  evolves s s'.
Proof.
  intros Hv Hreg Hst. split.
  - intros [H1 H2 H3]. split.
    + intros x. rewrite Hst, Hreg. intros Hx.
      apply settled_lookup_unsettled in Hx as [Hx _]; [|done]. by apply H1.
    + intros id x. rewrite Hst, Hreg, settled_length. apply H2.
    + intros id1 id2 x. rewrite Hreg. apply H3.
  - intros id x. by rewrite Hreg.
Qed.

(** A step that settles the deferred registered for a key and unregisters
    it. *)
Lemma evolves_settle_delete
    (id : Z) (df : DeferredRef) (v : Settlement) (s s' : State) :
  v <> Unsettled ->
  _documentDeferreds s !! id = Some df ->
  _documentDeferreds s' = delete id (_documentDeferreds s) ->
  deferredStore s' = settled df v (deferredStore s) ->
  evolves s s'.
Proof.
  intros Hv Hdf Hreg Hst. split.
  - intros [H1 H2 H3]. split.
    + intros x. rewrite Hst, Hreg. intros Hx.
      apply settled_lookup_unsettled in Hx as [Hx Hne]; [|done].
      destruct (H1 x Hx) as [k Hk]. exists k.
      rewrite lookup_delete_ne; [done|]. intros ->. congruence.
    + intros k x. rewrite Hst, Hreg, settled_length.
      intros [_ Hk]%lookup_delete_Some. by eapply H2.
    + intros k1 k2 x. rewrite Hreg.
      intros [_ Hk1]%lookup_delete_Some [_ Hk2]%lookup_delete_Some.
      by eapply H3.
  - intros k x. rewrite Hreg. by intros [_ Hk]%lookup_delete_Some.
Qed.

Lemma closedListener_returns (id : Z) (s : State) :
  closedListener id s
  = Returns tt
      (mkState (delete id (_documents s)) (delete id (_documentDeferreds s))
               (delete id (_documentChanges s)) (docStore s)
               (match _documentDeferreds s !! id with
                | Some df => settled df (Rejected None) (deferredStore s)
                | None => deferredStore s
                end)
               (requests s) (applyCalls s) (logger s)).
Proof.
  unfold closedListener, settle. unfold_monad. simpl_state.
  destruct (_documentDeferreds s !! id) as [df|] eqn:Hdf.
  - by state_eq.
  - state_eq; try done. by rewrite delete_id.
Qed.

Lemma queued_delete (id k : Z) (s s' : State) :
  _documentChanges s' = delete id (_documentChanges s) ->
  queued k s' <= queued k s.
Proof.
  intros Hq. unfold queued. rewrite Hq.
  destruct (decide (id = k)) as [->|Hne].
  - rewrite lookup_delete_eq. lia.
  - by rewrite lookup_delete_ne.
Qed.

Lemma closedListener_calm (id : Z) (s : State) :
  ends (closedListener id s) (calm s).
Proof.
  rewrite closedListener_returns. cbn [ends]. split.
  - destruct (_documentDeferreds s !! id) as [df|] eqn:Hdf.
    + apply (evolves_settle_delete id df (Rejected None));
        [done | exact Hdf | reflexivity | reflexivity].
    + apply evolves_same; simpl_state; [|done]. by rewrite delete_id.
  - intros k. by eapply queued_delete.
Qed.

Lemma ends_weaken {A} (o : Outcome A) (P Q : State -> Prop) :
  (forall s, P s -> Q s) -> ends o P -> ends o Q.
Proof. intros HPQ. destruct o; cbn; auto. Qed.

Lemma callApplyChange_calm (d : DocRef) (c : Change) (s : State) :
  ends (callApplyChange d c s) (calm s).
Proof.
  unfold DocumentManager.callApplyChange. unfold_monad.
  destruct (docStore s !! d) as [obj|]; [|apply calm_refl].
  simpl_state.
  match goal with |- context [with_docStore ?f (with_applyCalls ?g s)] =>
    set (s1 := with_docStore f (with_applyCalls g s)) end.
  assert (Hs1 : calm s s1).
  { split; [by apply evolves_same|]. intros k. by unfold queued. }
  destruct (applied_closed (applyChange (doc_content obj) c)).
  - pose proof (closedListener_calm (doc_listener obj) s1) as Hc.
    destruct (closedListener (doc_listener obj) s1) as [[] s2|s2|];
      cbn in *; [by eapply calm_trans | by eapply calm_trans | done].
  - exact Hs1.
Qed.

(** [_processNextChange] ends whenever it is given more calls than there
    are queued changes, and the registry only loses the entry of a
    deferred it has settled. *)
Lemma processNextChange_fuel_evolves (id : Z) :
  forall (n : nat) (s : State),
    queued id s < n ->
    ends (_processNextChange_fuel n id s) (evolves s).
Proof.
  induction n as [|n IH]; intros s Hlt; [lia|].
  cbn [DocumentManager._processNextChange_fuel]. unfold_monad.
  unfold queued in Hlt.
  destruct (_documentChanges s !! id) as [[|c rest]|] eqn:Hq;
    [| |apply evolves_refl].
  - destruct (_documentDeferreds s !! id) as [df|] eqn:Hdf; [|apply evolves_refl].
    unfold settle. unfold_monad. cbn [ends].
    by apply (evolves_settle_delete id df (Resolved (_documents s !! id))).
  - destruct (_documentDeferreds s !! id) as [df|] eqn:Hdf; [|apply evolves_refl].
    unfold log. unfold_monad. simpl_state.
    match goal with |- context [with_logger ?f (with_documentChanges ?g s)] =>
      set (s1 := with_logger f (with_documentChanges g s)) end.
    assert (Hs1 : evolves s s1) by by apply evolves_same.
    assert (Hq1 : queued id s1 = length rest).
    { unfold queued, s1. simpl_state. by rewrite lookup_insert_eq. }
    destruct (_documents s !! id) as [d|]; [|exact Hs1].
    pose proof (callApplyChange_calm d c s1) as Hc.
    destruct (callApplyChange d c s1) as [b s2|s2|]; cbn [ends] in Hc.
    + destruct Hc as [Hev Hqueue]. destruct b; cbn [negb].
      * apply (ends_weaken _ (evolves s2)).
        { intros s3 H3. eapply evolves_trans; [exact Hs1|].
          by eapply evolves_trans. }
        apply IH. specialize (Hqueue id). cbn [length] in Hlt. lia.
      * unfold _resetDocument. unfold_monad. cbn [ends].
        eapply evolves_trans; [exact Hs1|].
        eapply evolves_trans; [exact Hev|]. by apply evolves_same.
    + cbn [ends]. eapply evolves_trans; [exact Hs1|]. apply Hc.
    + done.
Qed.

(** Calls beyond one more than the number of queued changes are never
    used: with more of them [_processNextChange] does the same. *)
Lemma processNextChange_fuel_enough (id : Z) :
  forall (n m : nat) (s : State),
    queued id s < n -> n <= m ->
    _processNextChange_fuel m id s = _processNextChange_fuel n id s.
Proof.
  induction n as [|n IH]; intros m s Hlt Hle; [lia|].
  destruct m as [|m]; [lia|].
  cbn [DocumentManager._processNextChange_fuel]. unfold_monad.
  unfold queued in Hlt.
  destruct (_documentChanges s !! id) as [[|c rest]|] eqn:Hq; [done| |done].
  destruct (_documentDeferreds s !! id) as [df|]; [|done].
  unfold log. unfold_monad. simpl_state.
  destruct (_documents s !! id) as [d|]; [|done].
  match goal with |- context [DocumentManager.callApplyChange _ d c ?t] =>
    pose proof (callApplyChange_calm d c t) as Hc;
    assert (Hq1 : queued id t = length rest)
      by (unfold queued; simpl_state; by rewrite lookup_insert_eq);
    destruct (callApplyChange d c t) as [b s2|s2|]; [|done..]
  end.
  destruct b; cbn [negb]; [|done].
  destruct Hc as [_ Hqueue]. specialize (Hqueue id).
  cbn [length] in Hlt. apply IH; lia.
Qed.

Lemma processNextChange_evolves (id : Z) (s : State) :
  ends (_processNextChange id s) (evolves s).
Proof.
  unfold DocumentManager._processNextChange.
  apply processNextChange_fuel_evolves. lia.
Qed.

Lemma evolves_never_replaced (s s' : State) :
  evolves s s' -> never_replaced s s'.
Proof.
  intros [_ Hsub] id df Hdf.
  destruct (_documentDeferreds s' !! id) as [df'|] eqn:Hdf'; [|by right].
  left. apply Hsub in Hdf'. congruence.
Qed.

Lemma evolves_registry_step (s s' : State) :
  evolves s s' -> registry_ok s -> registry_ok s' /\ never_replaced s s'.
Proof.
  intros Hev Hok. split; [by apply Hev | by apply evolves_never_replaced].
Qed.

(** Registering a new deferred for a key that has none keeps the registry
    well-formed. *)
Lemma registry_ok_created (id : Z) (s s1 : State) :
  _documentDeferreds s !! id = None ->
  _documentDeferreds s1 = <[id := length (deferredStore s)]> (_documentDeferreds s) ->
  deferredStore s1 = deferredStore s ++ [Unsettled] ->
  registry_ok s -> registry_ok s1.
Proof.
  intros Hnone Hreg Hst [H1 H2 H3]. split.
  - intros x. rewrite Hst, Hreg. intros Hx.
    destruct (decide (x = length (deferredStore s))) as [->|Hne].
    + exists id. by rewrite lookup_insert_eq.
    + assert (Hlt : x < length (deferredStore s)).
      { apply lookup_lt_Some in Hx. rewrite length_app in Hx. cbn in Hx. lia. }
      rewrite lookup_app_l in Hx by done.
      destruct (H1 x Hx) as [k Hk]. exists k.
      rewrite lookup_insert_ne; [done|]. intros ->. congruence.
  - intros k x. rewrite Hst, Hreg, length_app. cbn.
    intros [[_ <-]|[_ Hk]]%lookup_insert_Some; [lia|].
    apply H2 in Hk. lia.
  - intros k1 k2 x. rewrite Hreg.
    intros [[<- <-]|[Hne1 Hk1]]%lookup_insert_Some
           [[<- Heq]|[Hne2 Hk2]]%lookup_insert_Some; try done.
    + apply H2 in Hk2. lia.
    + apply H2 in Hk1. lia.
    + by eapply H3.
Qed.

Lemma created_then_evolves (id : Z) (s s1 s' : State) :
  _documentDeferreds s !! id = None ->
  _documentDeferreds s1 = <[id := length (deferredStore s)]> (_documentDeferreds s) ->
  deferredStore s1 = deferredStore s ++ [Unsettled] ->
  evolves s1 s' ->
  registry_ok s -> registry_ok s' /\ never_replaced s s'.
Proof.
  intros Hnone Hreg Hst [Hev Hsub] Hok. split.
  - apply Hev. by eapply registry_ok_created.
  - intros k df Hk.
    destruct (_documentDeferreds s' !! k) as [df'|] eqn:Hk'; [|by right].
    left. apply Hsub in Hk'. rewrite Hreg in Hk'.
    rewrite lookup_insert_ne in Hk' by (intros ->; congruence).
    congruence.
Qed.

Lemma getDocument_registry (id : Z) (s : State) :
  registry_ok s ->
  ends (getDocument id s) (fun s' => registry_ok s' /\ never_replaced s s').
Proof.
  intros Hok. unfold getDocument. unfold_monad.
  destruct (_documentDeferreds s !! id) as [df|] eqn:Hdf.
  { apply evolves_registry_step; [apply evolves_refl | done]. }
  destruct (_documents s !! id) as [d|].
  { apply evolves_registry_step; [apply evolves_refl | done]. }
  rewrite initDocument_returns. cbn [ends].
  eapply (created_then_evolves id s); [done | | | apply evolves_refl | done]; done.
Qed.

Lemma handleImageChanged_registry (change : Change) (s : State) :
  registry_ok s ->
  ends (_handleImageChanged change s)
       (fun s' => registry_ok s' /\ never_replaced s s').
Proof.
  intros Hok. unfold DocumentManager._handleImageChanged.
  destruct (change_id change) as [id|];
    [|by apply evolves_registry_step; [apply evolves_same|]].
  destruct (falsy (Some id));
    [by apply evolves_registry_step; [apply evolves_same|]|].
  unfold_monad.
  destruct (bool_decide (_documentDeferreds s !! id = None)
            && bool_decide (_documents s !! id = None)).
  { apply evolves_registry_step; [apply evolves_refl | done]. }
  match goal with
  | |- ends (match _ with Returns _ s' => @?K s' | _ => _ end) ?Q =>
      assert (Hrest : forall s1,
                _documentDeferreds s1 = _documentDeferreds s ->
                deferredStore s1 = deferredStore s ->
                ends (K s1) Q);
        [|by destruct (bool_decide (_documentChanges s !! id = None));
             apply Hrest]
  end.
  intros s1 Hreg1 Hst1. cbn beta. simpl_state. rewrite Hreg1.
  match goal with |- context [?a && bool_decide ?P] =>
    destruct a; cbn [andb];
      [|by apply evolves_registry_step; [apply evolves_same|]];
    destruct (bool_decide_reflect P) as [Hnone|_];
      [|by apply evolves_registry_step; [apply evolves_same|]]
  end.
  destruct (_documents s1 !! id) as [d|].
  - unfold defer. unfold_monad. simpl_state.
    match goal with |- context [DocumentManager._processNextChange _ id ?t] =>
      pose proof (processNextChange_evolves id t) as Hev;
      destruct (_processNextChange id t) as [[] s3|s3|]; cbn [ends] in *;
        [| |done];
        (eapply (created_then_evolves id s);
          [exact Hnone | | | exact Hev | exact Hok]; simpl_state; congruence)
    end.
  - rewrite initDocument_returns. cbn [ends].
    eapply (created_then_evolves id s);
      [exact Hnone | | | apply evolves_refl | exact Hok]; simpl_state; congruence.
Qed.

Lemma resetDocument_fulfilled_evolves (id : Z) (raw : Raw) (s : State) :
  ends (_resetDocument_fulfilled id raw s) (evolves s).
Proof.
  unfold DocumentManager._resetDocument_fulfilled. unfold_monad. simpl_state.
  match goal with |- context [DocumentManager._processNextChange _ id ?t] =>
    apply (ends_weaken _ (evolves t)); [|apply processNextChange_evolves]
  end.
  intros s'. apply evolves_trans. by apply evolves_same.
Qed.

Lemma resetDocument_rejected_evolves (id : Z) (err : Err) (s : State) :
  ends (_resetDocument_rejected id err s) (evolves s).
Proof.
  unfold _resetDocument_rejected, log, settle. unfold_monad. simpl_state.
  destruct (_documentDeferreds s !! id) as [df|]; cbn [ends].
  - by apply (evolves_settle df (Rejected (Some err))).
  - by apply evolves_same.
Qed.

Lemma settleRequest_evolves
    (request : RequestRef) (k : Z -> M unit) (s : State) :
  (forall id s1, ends (k id s1) (evolves s1)) ->
  ends (settleRequest request k s) (evolves s).
Proof.
  intros Hk. unfold settleRequest. unfold_monad.
  destruct (requests s !! request) as [[id []]|]; try apply evolves_refl.
  eapply ends_weaken; [|apply Hk].
  intros s'. apply evolves_trans. by apply evolves_same.
Qed.

Lemma react_registry (e : Event) (s : State) :
  registry_ok s ->
  ends (react e s) (fun s' => registry_ok s' /\ never_replaced s s').
Proof.
  intros Hok. destruct e as [id|change|request raw|request err|d];
    cbn [DocumentManager.react].
  - unfold_monad. pose proof (getDocument_registry id s Hok) as H.
    by destruct (getDocument id s).
  - by apply handleImageChanged_registry.
  - eapply ends_weaken; [|apply settleRequest_evolves].
    + intros s' Hev. by apply evolves_registry_step.
    + intros id s1. apply resetDocument_fulfilled_evolves.
  - eapply ends_weaken; [|apply settleRequest_evolves].
    + intros s' Hev. by apply evolves_registry_step.
    + intros id s1. apply resetDocument_rejected_evolves.
  - unfold_monad. destruct (docStore s !! d) as [obj|].
    + eapply ends_weaken; [|apply closedListener_calm].
      intros s' [Hev _]. by apply evolves_registry_step.
    + apply evolves_registry_step; [apply evolves_refl | done].
Qed.

Lemma registry_ok_initial : registry_ok (initial : State).
Proof.
  split.
  - intros df. cbn. by destruct df.
  - intros id df. cbn. by rewrite lookup_empty.
  - intros id1 id2 df. cbn. by rewrite lookup_empty.
Qed.

Lemma run_registry (events : list Event) :
  forall s, registry_ok s -> ends (run events s) registry_ok.
Proof.
  induction events as [|e events IH]; intros s Hok; [done|].
  cbn [DocumentManager.run]. unfold_monad.
  pose proof (react_registry e s Hok) as He.
  destruct (react e s) as [[] s1|s1|]; cbn [ends] in *; [|tauto|done].
  apply IH. tauto.
Qed.

(** C7: the registry of deferreds starts well-formed and every reaction
    of the manager (a [getDocument] call, a change, a request delivering
    or failing, a "closed" signal, with all the processing they start)
    ends and keeps it so, as does [_processNextChange] by itself: every
    unsettled deferred is the registry entry of exactly one key; no reaction
    replaces the entry of a key by another deferred, so a deferred is
    registered for a key only when the key has none; and every state the
    manager reaches from the initial one has a well-formed registry. *)
Theorem registry_invariant :
  registry_ok (initial : State) /\
  (forall (e : Event) (s : State),
     registry_ok s ->
     ends (react e s) (fun s' => registry_ok s' /\ never_replaced s s')) /\
  (forall (id : Z) (s : State),
     registry_ok s ->
     ends (_processNextChange id s)
          (fun s' => registry_ok s' /\ never_replaced s s')) /\
  (forall events : list Event, ends (run events initial) registry_ok).
Proof.
  split; [apply registry_ok_initial|]. split; [|split].
  - apply react_registry.
  - intros id s Hok. eapply ends_weaken; [|apply processNextChange_evolves].
    intros s' Hev. by apply evolves_registry_step.
  - intros events. apply run_registry, registry_ok_initial.
Qed.

(** ** The documents of the keys *)

Lemma lands_weaken {A} (o : Outcome A) (P Q : State -> Prop) :
  (forall s, P s -> Q s) -> lands o P -> lands o Q.
Proof. intros HPQ. destruct o; cbn; auto. Qed.

Lemma keeps_trans (s1 s2 s3 : State) : keeps s1 s2 -> keeps s2 s3 -> keeps s1 s3.
Proof. unfold keeps. auto. Qed.

(** A step that touches neither the documents of the keys nor the
    Document objects. *)
Lemma keeps_same (s s' : State) :
  _documents s' = _documents s -> docStore s' = docStore s -> keeps s s'.
Proof. intros Hd Hst Hok id d. rewrite Hd, Hst. apply Hok. Qed.

(** A step that forgets the document of a key. *)
Lemma keeps_delete (id : Z) (s s' : State) :
  _documents s' = delete id (_documents s) -> docStore s' = docStore s ->
  keeps s s'.
Proof.
  intros Hd Hst Hok k d. rewrite Hd, Hst.
  intros [_ Hk]%lookup_delete_Some. by apply Hok.
Qed.

(** A step that changes the contents of a Document object. *)
Lemma keeps_update (d : DocRef) (obj : DocumentObj) (c : Content) (s s' : State) :
  docStore s !! d = Some obj ->
  _documents s' = _documents s ->
  docStore s' = <[d := mkDocumentObj c (doc_listener obj)]> (docStore s) ->
  keeps s s'.
Proof.
  intros Hobj Hd Hst Hok k d'. rewrite Hd, Hst. intros Hk.
  destruct (Hok k d' Hk) as (obj' & Hobj' & Hl).
  destruct (decide (d' = d)) as [->|Hne].
  - rewrite list_lookup_insert_eq by by eapply lookup_lt_Some.
    eexists. split; [done|]. cbn. congruence.
  - rewrite list_lookup_insert_ne by done. eauto.
Qed.

(** A step that installs a new Document object for a key. *)
Lemma keeps_install (id : Z) (c : Content) (s s' : State) :
  _documents s' = <[id := length (docStore s)]> (_documents s) ->
  docStore s' = docStore s ++ [mkDocumentObj c id] ->
  keeps s s'.
Proof.
  intros Hd Hst Hok k d. rewrite Hd, Hst.
  intros [[<- <-]|[_ Hk]]%lookup_insert_Some.
  - rewrite lookup_app_r, Nat.sub_diag by done. eauto.
  - destruct (Hok k d Hk) as (obj & Hobj & Hl).
    rewrite lookup_app_l by by eapply lookup_lt_Some. eauto.
Qed.

Lemma closedListener_keeps (id : Z) (s : State) :
  lands (closedListener id s) (keeps s).
Proof.
  rewrite closedListener_returns. cbn [lands]. by apply (keeps_delete id).
Qed.

Lemma callApplyChange_keeps (d : DocRef) (c : Change) (s : State) :
  lands (callApplyChange d c s) (keeps s).
Proof.
  unfold DocumentManager.callApplyChange. unfold_monad.
  destruct (docStore s !! d) as [obj|] eqn:Hobj; [|by intros ?].
  simpl_state.
  match goal with |- context [with_docStore ?f (with_applyCalls ?g s)] =>
    set (s1 := with_docStore f (with_applyCalls g s)) end.
  assert (Hs1 : keeps s s1) by by eapply (keeps_update d obj).
  destruct (applied_closed (applyChange (doc_content obj) c)).
  - pose proof (closedListener_keeps (doc_listener obj) s1) as Hc.
    destruct (closedListener (doc_listener obj) s1) as [[] s2|s2|];
      cbn in *; [by eapply keeps_trans | by eapply keeps_trans | done].
  - exact Hs1.
Qed.

Lemma processNextChange_fuel_keeps (id : Z) :
  forall (n : nat) (s : State),
    lands (_processNextChange_fuel n id s) (keeps s).
Proof.
  induction n as [|n IH]; intros s; [done|].
  cbn [DocumentManager._processNextChange_fuel]. unfold_monad.
  destruct (_documentChanges s !! id) as [[|c rest]|]; [| |by intros ?].
  - destruct (_documentDeferreds s !! id) as [df|]; [|by intros ?].
    unfold settle. unfold_monad. cbn [lands]. by apply keeps_same.
  - destruct (_documentDeferreds s !! id) as [df|]; [|by intros ?].
    unfold log. unfold_monad. simpl_state.
    match goal with |- context [with_logger ?f (with_documentChanges ?g s)] =>
      set (s1 := with_logger f (with_documentChanges g s)) end.
    assert (Hs1 : keeps s s1) by by apply keeps_same.
    destruct (_documents s !! id) as [d|]; [|exact Hs1].
    pose proof (callApplyChange_keeps d c s1) as Hc.
    destruct (callApplyChange d c s1) as [b s2|s2|]; cbn [lands] in Hc; [| |done].
    + destruct b; cbn [negb].
      * apply (lands_weaken _ (keeps s2)); [|apply IH].
        intros s3 H3. eapply keeps_trans; [exact Hs1|]. by eapply keeps_trans.
      * unfold _resetDocument. unfold_monad. cbn [lands].
        eapply keeps_trans; [exact Hs1|]. eapply keeps_trans; [exact Hc|].
        by apply (keeps_delete id).
    + cbn [lands]. eapply keeps_trans; [exact Hs1 | exact Hc].
Qed.

Lemma initDocument_keeps (id : Z) (s : State) :
  lands (_initDocument id s) (keeps s).
Proof. rewrite initDocument_returns. cbn [lands]. by apply (keeps_delete id). Qed.

Lemma handleImageChanged_keeps (change : Change) (s : State) :
  lands (_handleImageChanged change s) (keeps s).
Proof.
  unfold DocumentManager._handleImageChanged.
  destruct (change_id change) as [id|]; [|by apply keeps_same].
  destruct (falsy (Some id)); [by apply keeps_same|].
  unfold_monad.
  destruct (bool_decide (_documentDeferreds s !! id = None)
            && bool_decide (_documents s !! id = None)); [by intros ?|].
  match goal with
  | |- lands (match _ with Returns _ s' => @?K s' | _ => _ end) ?Q =>
      assert (Hrest : forall s1,
                _documents s1 = _documents s -> docStore s1 = docStore s ->
                lands (K s1) Q);
        [|by destruct (bool_decide (_documentChanges s !! id = None));
             apply Hrest]
  end.
  intros s1 Hd1 Hst1. cbn beta. simpl_state.
  match goal with |- context [if ?b then _ else _] => destruct b end;
    [|by apply keeps_same].
  destruct (_documents s1 !! id) as [d|].
  - unfold defer. unfold_monad. simpl_state.
    match goal with |- context [DocumentManager._processNextChange _ id ?t] =>
      apply (lands_weaken _ (keeps t));
        [|apply processNextChange_fuel_keeps]
    end.
    intros s'. apply keeps_trans. by apply keeps_same.
  - pose proof (initDocument_keeps id
                  (with_documentChanges
                     <[id := default [] (_documentChanges s1 !! id) ++ [change]]> s1))
      as Hinit.
    destruct (_initDocument id _) as [df s3|s3|]; cbn [lands] in *; [| |done].
    + eapply keeps_trans; [|exact Hinit]. by apply keeps_same.
    + eapply keeps_trans; [|exact Hinit]. by apply keeps_same.
Qed.

Lemma react_keeps (e : Event) (s : State) : lands (react e s) (keeps s).
Proof.
  destruct e as [id|change|request raw|request err|d];
    cbn [DocumentManager.react].
  - unfold getDocument. unfold_monad.
    destruct (_documentDeferreds s !! id); [by intros ?|].
    destruct (_documents s !! id); [by intros ?|].
    rewrite initDocument_returns. cbn [lands]. by apply (keeps_delete id).
  - apply handleImageChanged_keeps.
  - unfold settleRequest. unfold_monad.
    destruct (requests s !! request) as [[id []]|]; try by intros ?.
    unfold DocumentManager._resetDocument_fulfilled. unfold_monad. simpl_state.
    match goal with |- context [DocumentManager._processNextChange _ id ?t] =>
      apply (lands_weaken _ (keeps t));
        [|apply processNextChange_fuel_keeps]
    end.
    intros s'. apply keeps_trans. by eapply keeps_install.
  - unfold settleRequest. unfold_monad.
    destruct (requests s !! request) as [[id []]|]; try by intros ?.
    unfold _resetDocument_rejected, log, settle. unfold_monad. simpl_state.
    destruct (_documentDeferreds s !! id); by apply keeps_same.
  - unfold_monad. destruct (docStore s !! d) as [obj|]; [|by intros ?].
    apply closedListener_keeps.
Qed.

(** In every state the manager reaches, the document of a key is a
    Document object whose "closed" listener captured that key. *)
Lemma run_documents_ok (events : list Event) :
  forall s, documents_ok s -> lands (run events s) documents_ok.
Proof.
  induction events as [|e events IH]; intros s Hok; [done|].
  cbn [DocumentManager.run]. unfold_monad.
  pose proof (react_keeps e s) as He.
  destruct (react e s) as [[] s1|s1|]; cbn [lands] in *; [|by apply He|done].
  apply IH. by apply He.
Qed.

Lemma documents_ok_initial : documents_ok (initial : State).
Proof. intros id d. cbn. by rewrite lookup_empty. Qed.

(** ** Further properties of the methods *)

(** X1: a change for a key that has no document never starts a request and
    never creates or settles a deferred: it is dropped, or appended to the
    queue of the key.  (The branch of [_handleImageChanged] that calls
    [_initDocument] is therefore never taken.) *)
Theorem handleImageChanged_without_document
    (change : Change) (id : Z) (s : State) :
  change_id change = Some id ->
  _documents s !! id = None ->
  exists s',
    _handleImageChanged change s = Returns tt s' /\
    requests s' = requests s /\
    deferredStore s' = deferredStore s /\
    _documentDeferreds s' = _documentDeferreds s /\
    _documents s' = _documents s /\
    docStore s' = docStore s /\
    applyCalls s' = applyCalls s /\
    (_documentChanges s' = _documentChanges s \/
     exists q, _documentChanges s' = <[id := q ++ [change]]> (_documentChanges s)).
Proof.
  intros Hid Hdoc. unfold DocumentManager._handleImageChanged. rewrite Hid.
  destruct (falsy (Some id)).
  { eexists. split; [reflexivity|]. simpl_state. repeat split; try done. by left. }
  unfold_monad. rewrite Hdoc.
  destruct (_documentDeferreds s !! id) as [df|] eqn:Hdf.
  2:{ exists s. rewrite !bool_decide_eq_true_2 by done. cbn [andb].
      repeat split; try done. by left. }
  rewrite (bool_decide_eq_false_2 (Some df = None)) by done. cbn [andb].
  destruct (bool_decide (_documentChanges s !! id = None)); simpl_state;
    rewrite Hdf, (bool_decide_eq_false_2 (Some df = None)), andb_false_r by done.
  - eexists. split; [reflexivity|]. simpl_state. repeat split; try done.
    right. eexists. by rewrite insert_insert_eq.
  - eexists. split; [reflexivity|]. simpl_state. repeat split; try done.
    right. by eexists.
Qed.

(** X2: [getDocument] for a key that has neither document nor registry
    entry, then changes for the key while the request is outstanding, then
    the delivery of the raw document: the changes that pass the [!id]
    guard of [_handleImageChanged] (all of them, or none when the key is 0)
    are queued, and when the new document applies them without emitting
    "closed", they are all applied to it, in arrival order, before the
    deferred of the first call is resolved with that document; a later
    [getDocument] gets that same document at once. *)
Theorem first_request_with_changes
    (id : Z) (cs : list Change) (raw : Raw) (s : State) :
  _documentDeferreds s !! id = None ->
  _documents s !! id = None ->
  allFor id cs = true ->
  allApplied (newDocument raw) (queuedFor id cs) = true ->
  exists s',
    run (CallGetDocument id
           :: map ImageChanged cs ++ [RequestFulfilled (length (requests s)) raw]) s
    = Returns tt s' /\
    deferredStore s' !! length (deferredStore s)
    = Some (Resolved (Some (length (docStore s)))) /\
    docStore s' !! length (docStore s)
    = Some (mkDocumentObj (applyAll (newDocument raw) (queuedFor id cs)) id) /\
    applyCalls s' = applyCalls s ++ map (pair (length (docStore s))) (queuedFor id cs) /\
    getDocument id s' = Returns (FulfilledWith (length (docStore s))) s'.
Proof.
  intros Hdf Hd Hfor Hall.
  assert (Hget : react (CallGetDocument id) s
                 = Returns tt
                     (mkState (delete id (_documents s))
                        (<[id := length (deferredStore s)]> (_documentDeferreds s))
                        (<[id := []]> (_documentChanges s))
                        (docStore s) (deferredStore s ++ [Unsettled])
                        (requests s ++ [mkRequest id false])
                        (applyCalls s) (logger s))).
  { cbn [DocumentManager.react]. unfold getDocument. unfold_monad.
    rewrite Hdf, Hd, initDocument_returns. reflexivity. }
  erewrite run_cons by exact Hget.
  match goal with |- context [DocumentManager.run _ _ _ ?t] => set (s1 := t) end.
  destruct (run_changes_waiting id (length (deferredStore s)) [] cs s1)
    as (s1' & Hrun & E1 & E2 & E3 & E4 & E5 & E6 & E7); try done.
  { subst s1. simpl_state. by rewrite lookup_insert_eq. }
  { subst s1. simpl_state. by rewrite lookup_insert_eq. }
  cbn [app] in E3. subst s1. simpl_state_in E1. simpl_state_in E2.
  simpl_state_in E3. simpl_state_in E4. simpl_state_in E5.
  simpl_state_in E6. simpl_state_in E7.
  eexists. split.
  { erewrite run_app by exact Hrun.
    cbn [DocumentManager.run]. unfold_monad.
    erewrite request_fulfilled_all_applied
      with (id := id) (df := length (deferredStore s)) (cs := queuedFor id cs).
    - reflexivity.
    - rewrite E6. by rewrite lookup_app_r, Nat.sub_diag.
    - rewrite E2. by rewrite lookup_insert_eq.
    - rewrite E3. by rewrite lookup_insert_eq.
    - done. }
  simpl_state. rewrite E1, E2, E4, E5, E7.
  split; [by rewrite settled_fresh, lookup_app_r, Nat.sub_diag|].
  split; [by rewrite lookup_app_r, Nat.sub_diag|].
  split; [done|].
  unfold getDocument. unfold_monad. simpl_state.
  by rewrite lookup_delete_eq, lookup_insert_eq.
Qed.

(** What one call of [_processNextChange] does when the change at the
    front of the queue makes the document emit "closed", the listener of
    the document having captured the key: the change is shifted, logged and
    applied, and the listener has run when [_applyChange] returns. *)
Lemma processNextChange_fuel_closed
    (n : nat) (id : Z) (d : DocRef) (obj : DocumentObj) (df : DeferredRef)
    (c : Change) (rest : list Change) (s : State) :
  _documents s !! id = Some d ->
  docStore s !! d = Some obj ->
  doc_listener obj = id ->
  _documentDeferreds s !! id = Some df ->
  _documentChanges s !! id = Some (c :: rest) ->
  applied_closed (applyChange (doc_content obj) c) = true ->
  _processNextChange_fuel (S n) id s
  = (if negb (applied_success (applyChange (doc_content obj) c))
     then (log WarnUnableToApply ;; _resetDocument id)
     else _processNextChange_fuel n id)
      (mkState (delete id (_documents s)) (delete id (_documentDeferreds s))
               (delete id (_documentChanges s))
               (<[d := mkDocumentObj
                         (applied_content (applyChange (doc_content obj) c))
                         id]> (docStore s))
               (settled df (Rejected None) (deferredStore s))
               (requests s)
               (applyCalls s ++ [(d, c)])
               (logger s ++ [DebugApplyingChange c])).
Proof.
  intros Hd Hobj Hl Hdf Hq Hclosed. subst id.
  cbn [DocumentManager._processNextChange_fuel]. unfold_monad.
  rewrite Hq, Hdf, Hd.
  unfold DocumentManager.callApplyChange, log. unfold_monad. simpl_state.
  rewrite Hobj. simpl_state. rewrite Hclosed.
  rewrite closedListener_returns. simpl_state.
  rewrite lookup_insert_eq || idtac. rewrite Hdf.
  match goal with |- (if _ then _ else _) ?a = (if _ then _ else _) ?b =>
    replace a with b; [done|] end.
  apply state_ext; simpl_state; try done. by rewrite delete_insert_eq.
Qed.

(** X3: when the change at the front of the queue is applied and makes the
    document of the key emit "closed", [_processNextChange] stops there:
    the changes behind it are never applied, no request is issued, the key
    loses its document, queue and registry entry, and the waiting deferred
    is rejected. *)
Theorem closed_during_apply_stops
    (id : Z) (d : DocRef) (obj : DocumentObj) (df : DeferredRef)
    (c : Change) (rest : list Change) (s : State) :
  _documents s !! id = Some d ->
  docStore s !! d = Some obj ->
  doc_listener obj = id ->
  _documentDeferreds s !! id = Some df ->
  deferredStore s !! df = Some Unsettled ->
  _documentChanges s !! id = Some (c :: rest) ->
  applied_closed (applyChange (doc_content obj) c) = true ->
  applied_success (applyChange (doc_content obj) c) = true ->
  exists s',
    _processNextChange id s = Returns tt s' /\
    applyCalls s' = applyCalls s ++ [(d, c)] /\
    requests s' = requests s /\
    _documents s' !! id = None /\
    _documentChanges s' !! id = None /\
    _documentDeferreds s' !! id = None /\
    deferredStore s' !! df = Some (Rejected None).
Proof.
  intros Hd Hobj Hl Hdf Hu Hq Hclosed Hok.
  unfold DocumentManager._processNextChange.
  rewrite (queued_lookup _ _ _ Hq). cbn [length].
  rewrite (processNextChange_fuel_closed _ _ _ _ _ _ _ _ Hd Hobj Hl Hdf Hq Hclosed).
  rewrite Hok. cbn [negb DocumentManager._processNextChange_fuel].
  unfold_monad. simpl_state. rewrite !lookup_delete_eq.
  eexists. split; [reflexivity|]. simpl_state. rewrite !lookup_delete_eq.
  repeat split; try done.
  unfold settled. rewrite Hu. apply list_lookup_insert_eq.
  by eapply lookup_lt_Some.
Qed.

(** X4: when the change at the front of the queue cannot be applied and
    the same [_applyChange] call makes the document of the key emit
    "closed", the waiting deferred is rejected and unregistered, and
    [_resetDocument] still runs: a request for the key is issued, with an
    empty queue and nobody waiting for it. *)
Theorem closed_and_failure_in_one_call
    (id : Z) (d : DocRef) (obj : DocumentObj) (df : DeferredRef)
    (c : Change) (rest : list Change) (s : State) :
  _documents s !! id = Some d ->
  docStore s !! d = Some obj ->
  doc_listener obj = id ->
  _documentDeferreds s !! id = Some df ->
  deferredStore s !! df = Some Unsettled ->
  _documentChanges s !! id = Some (c :: rest) ->
  applied_closed (applyChange (doc_content obj) c) = true ->
  applied_success (applyChange (doc_content obj) c) = false ->
  exists s',
    _processNextChange id s = Returns tt s' /\
    applyCalls s' = applyCalls s ++ [(d, c)] /\
    requests s' = requests s ++ [mkRequest id false] /\
    _documents s' !! id = None /\
    _documentChanges s' !! id = Some [] /\
    _documentDeferreds s' !! id = None /\
    deferredStore s' !! df = Some (Rejected None).
Proof.
  intros Hd Hobj Hl Hdf Hu Hq Hclosed Hfail.
  unfold DocumentManager._processNextChange.
  rewrite (queued_lookup _ _ _ Hq). cbn [length].
  rewrite (processNextChange_fuel_closed _ _ _ _ _ _ _ _ Hd Hobj Hl Hdf Hq Hclosed).
  rewrite Hfail. cbn [negb].
  unfold _resetDocument, log. unfold_monad. simpl_state.
  eexists. split; [reflexivity|]. simpl_state.
  rewrite !lookup_delete_eq, lookup_insert_eq.
  repeat split; try done.
  unfold settled. rewrite Hu. apply list_lookup_insert_eq.
  by eapply lookup_lt_Some.
Qed.

(** X5: a second "closed" signal of the same document changes nothing:
    the listener finds the key already cleared. *)
Theorem closed_twice (d : DocRef) (s : State) :
  run [DocumentClosed d; DocumentClosed d] s = run [DocumentClosed d] s.
Proof.
  cbn [DocumentManager.run DocumentManager.react]. unfold_monad.
  destruct (docStore s !! d) as [obj|] eqn:Hobj; [|by rewrite Hobj].
  rewrite closedListener_returns. simpl_state. rewrite Hobj.
  rewrite closedListener_returns. simpl_state.
  rewrite lookup_delete_eq. state_eq; try done; apply delete_delete_eq.
Qed.

(** ** What the manager keeps true *)

Lemma settled_lookup_Some
    (df x : DeferredRef) (v y : Settlement) (h : list (@Settlement Err)) :
  settled df v h !! x = Some y -> h !! x = Some y \/ (x = df /\ y = v).
Proof.
  unfold settled. destruct (h !! df) as [[]|] eqn:Hdf; try by left.
  destruct (decide (x = df)) as [->|Hne].
  - rewrite list_lookup_insert_eq by by eapply lookup_lt_Some.
    intros [= <-]. by right.
  - rewrite list_lookup_insert_ne by done. by left.
Qed.

Lemma queued_zero (id : Z) (s : State) :
  queued id s = O <->
  _documentChanges s !! id = None \/ _documentChanges s !! id = Some [].
Proof.
  unfold queued. destruct (_documentChanges s !! id) as [[|c q]|]; cbn.
  - split; [by right | done].
  - split; [done | by intros [|]].
  - split; [by left | done].
Qed.

(** A step that leaves the dictionaries, the stores, the requests and the
    record of calls as they are. *)
Lemma wf_same (x : option Z) (s s' : State) :
  _documents s' = _documents s ->
  _documentDeferreds s' = _documentDeferreds s ->
  _documentChanges s' = _documentChanges s ->
  docStore s' = docStore s ->
  deferredStore s' = deferredStore s ->
  requests s' = requests s ->
  applyCalls s' = applyCalls s ->
  wf x s -> wf x s'.
Proof.
  intros E1 E2 E3 E4 E5 E6 E7 [H1 H2 H3 H4 H5 H6 Ha H7 Hexc]. split.
  - intros id d. rewrite E1, E4. apply H1.
  - intros id. unfold queued. rewrite E2, E3. apply H2.
  - intros id q c. rewrite E3. apply H3.
  - intros i d c. rewrite E7, E4. apply H4.
  - intros df v. rewrite E5, E4. apply H5.
  - intros id df. rewrite E2, E3. apply H6.
  - intros id df. rewrite E2, E5. apply Ha.
  - intros id df. rewrite E2, E5, E6. apply H7.
  - intros id d. rewrite E1, E2. apply Hexc.
Qed.

(** With nobody waiting for [id], or a request for it outstanding, the
    exemption of [id] can be dropped. *)
Lemma wf_settle_key (id : Z) (s : State) :
  (forall df, _documentDeferreds s !! id = Some df ->
     deferredStore s !! df = Some Unsettled ->
     exists request, requests s !! request = Some (mkRequest id false)) ->
  (forall d, _documents s !! id = Some d -> _documentDeferreds s !! id = None) ->
  wf (Some id) s -> wf None s.
Proof.
  intros Hid Hex [H1 H2 H3 H4 H5 H6 Ha H7 Hexc]. split; try done.
  - intros k df _ Hk Hu. destruct (decide (k = id)) as [->|Hne].
    + by eapply Hid.
    + eapply H7; [congruence | done..].
  - intros k d _ Hk. destruct (decide (k = id)) as [->|Hne].
    + by eapply Hex.
    + eapply Hexc; [congruence | done].
Qed.

Lemma wf_exempt (x : option Z) (s : State) : wf None s -> wf x s.
Proof.
  intros [H1 H2 H3 H4 H5 H6 Ha H7 Hexc]. split; try done.
  - intros k df _. by apply H7.
  - intros k d _. by apply Hexc.
Qed.

(** The "closed" listener of a key has run. *)
Lemma wf_closed (x : option Z) (k : Z) (s s' : State) :
  _documents s' = delete k (_documents s) ->
  _documentDeferreds s' = delete k (_documentDeferreds s) ->
  _documentChanges s' = delete k (_documentChanges s) ->
  docStore s' = docStore s ->
  deferredStore s'
  = match _documentDeferreds s !! k with
    | Some df => settled df (Rejected None) (deferredStore s)
    | None => deferredStore s
    end ->
  requests s' = requests s ->
  applyCalls s' = applyCalls s ->
  wf x s -> wf x s'.
Proof.
  intros E1 E2 E3 E4 E5 E6 E7 [H1 H2 H3 H4 H5 H6 Ha H7 Hexc].
  assert (Hu : forall df, deferredStore s' !! df = Some Unsettled ->
                          deferredStore s !! df = Some Unsettled).
  { intros df. rewrite E5. destruct (_documentDeferreds s !! k); [|done].
    by intros [? _]%settled_lookup_unsettled. }
  assert (Hr : forall df v, deferredStore s' !! df = Some (Resolved v) ->
                            deferredStore s !! df = Some (Resolved v)).
  { intros df v. rewrite E5. destruct (_documentDeferreds s !! k); [|done].
    by intros [?|[_ ?]]%settled_lookup_Some. }
  split.
  - by apply (keeps_delete k s s').
  - intros id. unfold queued. rewrite E2, E3.
    destruct (decide (k = id)) as [->|Hne].
    + by rewrite !lookup_delete_eq.
    + rewrite !lookup_delete_ne by done. apply H2.
  - intros id q c. rewrite E3. intros [_ Hq]%lookup_delete_Some. by apply H3.
  - intros i d c. rewrite E7, E4. apply H4.
  - intros df v Hv. rewrite E4. by eapply H5, Hr.
  - intros id df. rewrite E2, E3. intros [Hne Hid]%lookup_delete_Some.
    rewrite lookup_delete_ne by done. by eapply H6.
  - intros id df. rewrite E2. intros [_ Hid]%lookup_delete_Some.
    apply Ha in Hid. rewrite E5.
    destruct (_documentDeferreds s !! k); by rewrite ?settled_length.
  - intros id df Hx. rewrite E2, E6. intros [Hne Hid]%lookup_delete_Some Hdf.
    eapply H7; [done | done | by apply Hu].
  - intros id d Hne. rewrite E1, E2. intros [Hk Hd]%lookup_delete_Some.
    rewrite lookup_delete_ne by done. by eapply Hexc.
Qed.

Lemma lookup_update_listener
    (d d' : DocRef) (obj o : DocumentObj) (c : Content) (h : list DocumentObj) :
  h !! d = Some obj ->
  h !! d' = Some o ->
  exists o', <[d := mkDocumentObj c (doc_listener obj)]> h !! d' = Some o' /\
             doc_listener o' = doc_listener o.
Proof.
  intros Hd Hd'. destruct (decide (d' = d)) as [->|Hne].
  - rewrite list_lookup_insert_eq by by eapply lookup_lt_Some.
    eexists. split; [done|]. cbn. congruence.
  - rewrite list_lookup_insert_ne by done. eauto.
Qed.

(** The change at the front of the queue of [id] has been shifted and
    applied to the document of [id]. *)
Lemma wf_applied
    (x : option Z) (id : Z) (d : DocRef) (obj : DocumentObj) (df : DeferredRef)
    (c : Change) (rest : list Change) (content : Content) (s s' : State) :
  _documents s !! id = Some d ->
  docStore s !! d = Some obj ->
  _documentDeferreds s !! id = Some df ->
  _documentChanges s !! id = Some (c :: rest) ->
  _documents s' = _documents s ->
  _documentDeferreds s' = _documentDeferreds s ->
  _documentChanges s' = <[id := rest]> (_documentChanges s) ->
  docStore s' = <[d := mkDocumentObj content (doc_listener obj)]> (docStore s) ->
  deferredStore s' = deferredStore s ->
  requests s' = requests s ->
  applyCalls s' = applyCalls s ++ [(d, c)] ->
  wf x s -> wf x s'.
Proof.
  intros Hd Hobj Hdf Hq E1 E2 E3 E4 E5 E6 E7 [H1 H2 H3 H4 H5 H6 Ha H7 Hexc].
  split.
  - by apply (keeps_update d obj content s s').
  - intros k. unfold queued. rewrite E2, E3. intros Hk.
    rewrite lookup_insert_ne by (intros ->; congruence). by apply H2.
  - intros k q c'. rewrite E3.
    intros [[<- <-]|[_ Hk]]%lookup_insert_Some Hin.
    + apply (H3 id (c :: rest)); [done|]. by apply list_elem_of_further.
    + by eapply H3.
  - intros i d' c'. rewrite E7, E4.
    intros [[_ Hi]|[_ [= <- <-]]]%lookup_snoc_Some.
    + destruct (H4 i d' c' Hi) as (o & Ho & Hc).
      destruct (lookup_update_listener d d' obj o content _ Hobj Ho)
        as (o' & Ho' & Hl).
      exists o'. split; [done|]. congruence.
    + destruct (H1 id d Hd) as (o & Ho & Hl).
      rewrite list_lookup_insert_eq by by eapply lookup_lt_Some.
      eexists. split; [done|]. cbn.
      rewrite (H3 id (c :: rest) c Hq) by (apply elem_of_cons; by left).
      congruence.
  - intros df' v. rewrite E5, E4. intros Hv.
    destruct (H5 df' v Hv) as (d' & o & -> & Ho).
    destruct (lookup_update_listener d d' obj o content _ Hobj Ho)
      as (o' & Ho' & _).
    eauto.
  - intros k df'. rewrite E2, E3. intros Hk.
    destruct (decide (id = k)) as [->|Hne].
    + by rewrite lookup_insert_eq.
    + rewrite lookup_insert_ne by done. by eapply H6.
  - intros k df'. rewrite E2, E5. apply Ha.
  - intros k df'. rewrite E2, E5, E6. apply H7.
  - intros k d'. rewrite E1, E2. apply Hexc.
Qed.

(** [_resetDocument(id)] has run. *)
Lemma wf_reset (id : Z) (s s' : State) :
  _documents s' = delete id (_documents s) ->
  _documentDeferreds s' = _documentDeferreds s ->
  _documentChanges s' = <[id := []]> (_documentChanges s) ->
  docStore s' = docStore s ->
  deferredStore s' = deferredStore s ->
  requests s' = requests s ++ [mkRequest id false] ->
  applyCalls s' = applyCalls s ->
  wf (Some id) s -> wf None s'.
Proof.
  intros E1 E2 E3 E4 E5 E6 E7 [H1 H2 H3 H4 H5 H6 Ha H7 Hexc]. split.
  - by apply (keeps_delete id s s').
  - intros k. unfold queued. rewrite E2, E3. intros Hk.
    destruct (decide (id = k)) as [->|Hne].
    + by rewrite lookup_insert_eq.
    + rewrite lookup_insert_ne by done. by apply H2.
  - intros k q c. rewrite E3.
    intros [[<- <-]|[_ Hk]]%lookup_insert_Some Hin.
    + by apply elem_of_nil in Hin.
    + by eapply H3.
  - intros i d c. rewrite E7, E4. apply H4.
  - intros df v. rewrite E5, E4. apply H5.
  - intros k df. rewrite E2, E3. intros Hk.
    destruct (decide (id = k)) as [->|Hne].
    + by rewrite lookup_insert_eq.
    + rewrite lookup_insert_ne by done. by eapply H6.
  - intros k df. rewrite E2, E5. apply Ha.
  - intros k df _. rewrite E2, E5, E6. intros Hk Hu.
    destruct (decide (k = id)) as [->|Hne].
    + exists (length (requests s)). by rewrite lookup_app_r, Nat.sub_diag.
    + destruct (H7 k df) as [r Hr]; [congruence | done | done |].
      exists r. rewrite lookup_app_l; [done|]. by eapply lookup_lt_Some.
  - intros k d _. rewrite E1, E2. intros [Hne Hd]%lookup_delete_Some.
    eapply Hexc; [congruence | done].
Qed.

(** The queue of [id] was empty: its deferred has been resolved with the
    document of [id] and unregistered. *)
Lemma wf_resolve
    (id : Z) (d : DocRef) (df : DeferredRef) (s s' : State) :
  _documents s !! id = Some d ->
  _documentChanges s !! id = Some [] ->
  _documentDeferreds s !! id = Some df ->
  _documents s' = _documents s ->
  _documentDeferreds s' = delete id (_documentDeferreds s) ->
  _documentChanges s' = _documentChanges s ->
  docStore s' = docStore s ->
  deferredStore s' = settled df (Resolved (Some d)) (deferredStore s) ->
  requests s' = requests s ->
  applyCalls s' = applyCalls s ->
  wf (Some id) s -> wf None s'.
Proof.
  intros Hd Hq Hdf E1 E2 E3 E4 E5 E6 E7 [H1 H2 H3 H4 H5 H6 Ha H7 Hexc]. split.
  - intros k d'. rewrite E1, E4. apply H1.
  - intros k. unfold queued. rewrite E2, E3.
    destruct (decide (id = k)) as [<-|Hne].
    + by rewrite Hq.
    + rewrite lookup_delete_ne by done. apply H2.
  - intros k q c. rewrite E3. apply H3.
  - intros i d' c. rewrite E7, E4. apply H4.
  - intros df' v. rewrite E5, E4.
    intros [Hv|[_ [= ->]]]%settled_lookup_Some; [by eapply H5|].
    destruct (H1 id d Hd) as (obj & Hobj & _). eauto.
  - intros k df'. rewrite E2, E3. intros [_ Hk]%lookup_delete_Some.
    by eapply H6.
  - intros k df'. rewrite E2, E5, settled_length.
    intros [_ Hk]%lookup_delete_Some. by eapply Ha.
  - intros k df' _. rewrite E2, E5, E6.
    intros [Hne Hk]%lookup_delete_Some [Hu _]%settled_lookup_unsettled; [|done].
    eapply H7; [congruence | done..].
  - intros k d' _. rewrite E1, E2. intros Hk.
    destruct (decide (id = k)) as [->|Hne]; [by rewrite lookup_delete_eq|].
    rewrite lookup_delete_ne by done. eapply Hexc; [congruence | done].
Qed.

(** A request for [id] has been marked as done. *)
Lemma wf_request_done (id : Z) (request : RequestRef) (s s' : State) :
  requests s !! request = Some (mkRequest id false) ->
  _documents s' = _documents s ->
  _documentDeferreds s' = _documentDeferreds s ->
  _documentChanges s' = _documentChanges s ->
  docStore s' = docStore s ->
  deferredStore s' = deferredStore s ->
  requests s' = <[request := mkRequest id true]> (requests s) ->
  applyCalls s' = applyCalls s ->
  wf None s -> wf (Some id) s'.
Proof.
  intros Hr E1 E2 E3 E4 E5 E6 E7 [H1 H2 H3 H4 H5 H6 Ha H7 Hexc]. split.
  - intros k d. rewrite E1, E4. apply H1.
  - intros k. unfold queued. rewrite E2, E3. apply H2.
  - intros k q c. rewrite E3. apply H3.
  - intros i d c. rewrite E7, E4. apply H4.
  - intros df v. rewrite E5, E4. apply H5.
  - intros k df. rewrite E2, E3. apply H6.
  - intros k df. rewrite E2, E5. apply Ha.
  - intros k df Hne. rewrite E2, E5, E6. intros Hk Hu.
    destruct (H7 k df) as [r' Hr']; [done..|].
    exists r'. rewrite list_lookup_insert_ne; [done|].
    intros ->. rewrite Hr in Hr'. congruence.
  - intros k d _. rewrite E1, E2. by apply Hexc.
Qed.

(** A new Document object has been installed for [id]. *)
Lemma wf_install (id : Z) (content : Content) (s s' : State) :
  _documents s' = <[id := length (docStore s)]> (_documents s) ->
  _documentDeferreds s' = _documentDeferreds s ->
  _documentChanges s' = _documentChanges s ->
  docStore s' = docStore s ++ [mkDocumentObj content id] ->
  deferredStore s' = deferredStore s ->
  requests s' = requests s ->
  applyCalls s' = applyCalls s ->
  wf (Some id) s -> wf (Some id) s'.
Proof.
  intros E1 E2 E3 E4 E5 E6 E7 [H1 H2 H3 H4 H5 H6 Ha H7 Hexc]. split.
  - by apply (keeps_install id content s s').
  - intros k. unfold queued. rewrite E2, E3. apply H2.
  - intros k q c. rewrite E3. apply H3.
  - intros i d c. rewrite E7, E4. intros Hi.
    destruct (H4 i d c Hi) as (o & Ho & Hc). exists o.
    rewrite lookup_app_l; [done|]. by eapply lookup_lt_Some.
  - intros df v. rewrite E5, E4. intros Hv.
    destruct (H5 df v Hv) as (d & o & -> & Ho). exists d, o.
    rewrite lookup_app_l; [done|]. by eapply lookup_lt_Some.
  - intros k df. rewrite E2, E3. apply H6.
  - intros k df. rewrite E2, E5. apply Ha.
  - intros k df. rewrite E2, E5, E6. apply H7.
  - intros k d Hne. rewrite E1, E2.
    rewrite lookup_insert_ne by congruence. by apply Hexc.
Qed.

(** The deferred registered for [id] has been rejected. *)
Lemma wf_reject
    (id : Z) (df : DeferredRef) (reason : option Err) (s s' : State) :
  _documentDeferreds s !! id = Some df ->
  _documents s !! id = None ->
  _documents s' = _documents s ->
  _documentDeferreds s' = _documentDeferreds s ->
  _documentChanges s' = _documentChanges s ->
  docStore s' = docStore s ->
  deferredStore s' = settled df (Rejected reason) (deferredStore s) ->
  requests s' = requests s ->
  applyCalls s' = applyCalls s ->
  wf (Some id) s -> wf None s'.
Proof.
  intros Hdf Hnodoc E1 E2 E3 E4 E5 E6 E7 [H1 H2 H3 H4 H5 H6 Ha H7 Hexc]. split.
  - intros k d. rewrite E1, E4. apply H1.
  - intros k. unfold queued. rewrite E2, E3. apply H2.
  - intros k q c. rewrite E3. apply H3.
  - intros i d c. rewrite E7, E4. apply H4.
  - intros df' v. rewrite E5, E4.
    intros [Hv|[_ [=]]]%settled_lookup_Some. by eapply H5.
  - intros k df'. rewrite E2, E3. apply H6.
  - intros k df'. rewrite E2, E5, settled_length. apply Ha.
  - intros k df' _. rewrite E2, E5, E6.
    intros Hk [Hu Hne]%settled_lookup_unsettled; [|done].
    eapply H7; [|done..]. intros [= ->]. congruence.
  - intros k d _. rewrite E1, E2. intros Hk.
    destruct (decide (k = id)) as [->|Hne]; [congruence|].
    eapply Hexc; [congruence | done].
Qed.

Lemma lookup_snoc_unsettled (df : DeferredRef) (h : list (@Settlement Err)) :
  (h ++ [Unsettled]) !! df = Some Unsettled ->
  df < length h ->
  h !! df = Some Unsettled.
Proof. intros Hdf Hlt. by rewrite lookup_app_l in Hdf. Qed.

(** [_initDocument(id)] has run for a key without a registry entry. *)
Lemma wf_init (id : Z) (s s' : State) :
  _documentDeferreds s !! id = None ->
  _documents s' = delete id (_documents s) ->
  _documentDeferreds s' = <[id := length (deferredStore s)]> (_documentDeferreds s) ->
  _documentChanges s' = <[id := []]> (_documentChanges s) ->
  docStore s' = docStore s ->
  deferredStore s' = deferredStore s ++ [Unsettled] ->
  requests s' = requests s ++ [mkRequest id false] ->
  applyCalls s' = applyCalls s ->
  wf None s -> wf None s'.
Proof.
  intros Hdf E1 E2 E3 E4 E5 E6 E7 [H1 H2 H3 H4 H5 H6 Ha H7 Hexc]. split.
  - by apply (keeps_delete id s s').
  - intros k. unfold queued. rewrite E2, E3.
    intros [Hk Hne]%lookup_insert_None.
    rewrite lookup_insert_ne by done. by apply H2.
  - intros k q c. rewrite E3.
    intros [[<- <-]|[_ Hk]]%lookup_insert_Some Hin.
    + by apply elem_of_nil in Hin.
    + by eapply H3.
  - intros i d c. rewrite E7, E4. apply H4.
  - intros df v. rewrite E5, E4.
    intros [[_ Hv]|[_ [=]]]%lookup_snoc_Some. by eapply H5.
  - intros k df. rewrite E2, E3. intros Hk.
    destruct (decide (id = k)) as [->|Hne].
    + by rewrite lookup_insert_eq.
    + rewrite lookup_insert_ne in Hk by done.
      rewrite lookup_insert_ne by done. by eapply H6.
  - intros k df. rewrite E2, E5, length_app. cbn.
    intros [[_ <-]|[_ Hk]]%lookup_insert_Some; [lia|]. apply Ha in Hk. lia.
  - intros k df _. rewrite E2, E5, E6. intros Hk Hu.
    destruct (decide (id = k)) as [<-|Hne].
    + exists (length (requests s)). by rewrite lookup_app_r, Nat.sub_diag.
    + rewrite lookup_insert_ne in Hk by done.
      apply lookup_snoc_unsettled in Hu; [|by eapply Ha].
      destruct (H7 k df) as [r Hr]; [done..|].
      exists r. rewrite lookup_app_l; [done|]. by eapply lookup_lt_Some.
  - intros k d _. rewrite E1, E2. intros [Hne Hd]%lookup_delete_Some.
    rewrite lookup_insert_ne by done. by eapply Hexc.
Qed.

(** A change for a Ready key [id] has been queued and a deferred
    registered for it. *)
Lemma wf_ready_push
    (id : Z) (d : DocRef) (c : Change) (s s' : State) :
  _documentDeferreds s !! id = None ->
  change_id c = Some id ->
  _documents s' = _documents s ->
  _documentDeferreds s' = <[id := length (deferredStore s)]> (_documentDeferreds s) ->
  _documentChanges s' = <[id := [c]]> (_documentChanges s) ->
  docStore s' = docStore s ->
  deferredStore s' = deferredStore s ++ [Unsettled] ->
  requests s' = requests s ->
  applyCalls s' = applyCalls s ->
  wf None s -> wf (Some id) s'.
Proof.
  intros Hdf Hc E1 E2 E3 E4 E5 E6 E7 [H1 H2 H3 H4 H5 H6 Ha H7 Hexc]. split.
  - intros k d'. rewrite E1, E4. apply H1.
  - intros k. unfold queued. rewrite E2, E3.
    intros [Hk Hne]%lookup_insert_None.
    rewrite lookup_insert_ne by done. by apply H2.
  - intros k q c'. rewrite E3.
    intros [[<- <-]|[_ Hk]]%lookup_insert_Some Hin.
    + apply list_elem_of_singleton in Hin. by subst.
    + by eapply H3.
  - intros i d' c'. rewrite E7, E4. apply H4.
  - intros df v. rewrite E5, E4.
    intros [[_ Hv]|[_ [=]]]%lookup_snoc_Some. by eapply H5.
  - intros k df. rewrite E2, E3. intros Hk.
    destruct (decide (id = k)) as [->|Hne].
    + by rewrite lookup_insert_eq.
    + rewrite lookup_insert_ne in Hk by done.
      rewrite lookup_insert_ne by done. by eapply H6.
  - intros k df. rewrite E2, E5, length_app. cbn.
    intros [[_ <-]|[_ Hk]]%lookup_insert_Some; [lia|]. apply Ha in Hk. lia.
  - intros k df Hne. rewrite E2, E5, E6. intros Hk Hu.
    rewrite lookup_insert_ne in Hk by congruence.
    apply lookup_snoc_unsettled in Hu; [|by eapply Ha].
    by eapply H7.
  - intros k d' Hne. rewrite E1, E2. intros Hk.
    rewrite lookup_insert_ne by congruence. by eapply Hexc.
Qed.

(** A change for a key [id] with a registry entry has been queued. *)
Lemma wf_push
    (x : option Z) (id : Z) (df : DeferredRef) (q : list Change) (c : Change)
    (s s' : State) :
  _documentDeferreds s !! id = Some df ->
  _documentChanges s !! id = Some q ->
  change_id c = Some id ->
  _documents s' = _documents s ->
  _documentDeferreds s' = _documentDeferreds s ->
  _documentChanges s' = <[id := q ++ [c]]> (_documentChanges s) ->
  docStore s' = docStore s ->
  deferredStore s' = deferredStore s ->
  requests s' = requests s ->
  applyCalls s' = applyCalls s ->
  wf x s -> wf x s'.
Proof.
  intros Hdf Hq Hc E1 E2 E3 E4 E5 E6 E7 [H1 H2 H3 H4 H5 H6 Ha H7 Hexc]. split.
  - intros k d. rewrite E1, E4. apply H1.
  - intros k. unfold queued. rewrite E2, E3. intros Hk.
    rewrite lookup_insert_ne by (intros ->; congruence). by apply H2.
  - intros k q' c'. rewrite E3.
    intros [[<- <-]|[_ Hk]]%lookup_insert_Some Hin.
    + apply elem_of_app in Hin as [Hin|Hin%list_elem_of_singleton].
      * by eapply H3.
      * by subst.
    + by eapply H3.
  - intros i d c'. rewrite E7, E4. apply H4.
  - intros df' v. rewrite E5, E4. apply H5.
  - intros k df'. rewrite E2, E3. intros Hk.
    destruct (decide (id = k)) as [->|Hne].
    + by rewrite lookup_insert_eq.
    + rewrite lookup_insert_ne by done. by eapply H6.
  - intros k df'. rewrite E2, E5. apply Ha.
  - intros k df'. rewrite E2, E5, E6. apply H7.
  - intros k d. rewrite E1, E2. apply Hexc.
Qed.

Lemma returns_weaken {A} (o : Outcome A) (P Q : State -> Prop) :
  (forall s, P s -> Q s) -> returns o P -> returns o Q.
Proof. intros HPQ. destruct o; cbn; auto. Qed.

Lemma elsewhere_refl (x : option Z) (s : State) : elsewhere x s s.
Proof. by intros k _. Qed.

Lemma elsewhere_trans (x : option Z) (s1 s2 s3 : State) :
  elsewhere x s1 s2 -> elsewhere x s2 s3 -> elsewhere x s1 s3.
Proof.
  intros H12 H23 k Hk. destruct (H12 k Hk) as (A1 & A2 & A3).
  destruct (H23 k Hk) as (B1 & B2 & B3). repeat split; congruence.
Qed.

Lemma elsewhere_none (x : option Z) (s s' : State) :
  elsewhere None s s' -> elsewhere x s s'.
Proof. intros H k _. by apply H. Qed.

Ltac solve_elsewhere :=
  let k := fresh "k" in
  let Hk := fresh "Hk" in
  intros k Hk; repeat split; simpl_state;
  rewrite ?lookup_insert_ne, ?lookup_delete_ne by congruence; done.

(** [_processNextChange(id)], started while the manager reacts for [id]
    with the document of [id] in place (or nobody registered): it returns,
    what the manager keeps true holds again, and no other key is touched. *)
Lemma processNextChange_fuel_wf (id : Z) :
  forall (n : nat) (s : State),
    queued id s < n ->
    wf (Some id) s ->
    _documentDeferreds s !! id = None \/ is_Some (_documents s !! id) ->
    returns (_processNextChange_fuel n id s)
            (fun s' => wf None s' /\ elsewhere (Some id) s s').
Proof.
  induction n as [|n IH]; intros s Hlt Hwf Hdoc; [lia|].
  cbn [DocumentManager._processNextChange_fuel]. unfold_monad.
  unfold queued in Hlt.
  destruct (_documentDeferreds s !! id) as [df|] eqn:Hdf.
  2:{ assert (Hret : wf None s /\ elsewhere (Some id) s s).
      { split; [|apply elsewhere_refl].
        apply (wf_settle_key id); [intros df; by rewrite Hdf | done | done]. }
      by destruct (_documentChanges s !! id) as [[|c rest]|]. }
  destruct Hdoc as [|[d Hd]]; [done|].
  destruct (wf_documents _ _ Hwf id d Hd) as (obj & Hobj & Hl).
  destruct (wf_has_queue _ _ Hwf id df Hdf) as [q Hq]. rewrite Hq in *.
  destruct q as [|c rest].
  - unfold settle. unfold_monad. cbn [returns]. rewrite Hd. split.
    + by eapply (wf_resolve id d df s).
    + solve_elsewhere.
  - cbn [length] in Hlt. rewrite Hd.
    unfold log, DocumentManager.callApplyChange. unfold_monad. simpl_state.
    rewrite Hobj. simpl_state.
    match goal with |- context [with_docStore ?f (with_applyCalls ?g ?t)] =>
      set (s2 := with_docStore f (with_applyCalls g t)) end.
    assert (Hwf2 : wf (Some id) s2) by by eapply (wf_applied _ id d obj df c rest).
    assert (He2 : elsewhere (Some id) s s2) by (subst s2; solve_elsewhere).
    destruct (applied_closed (applyChange (doc_content obj) c)).
    + rewrite closedListener_returns, Hl.
      match goal with |- returns (_ ?t) _ => set (s3 := t) end.
      assert (Hwf3 : wf (Some id) s3) by by eapply (wf_closed _ id s2).
      assert (He3 : elsewhere (Some id) s s3).
      { eapply elsewhere_trans; [exact He2|]. subst s3. solve_elsewhere. }
      destruct (applied_success (applyChange (doc_content obj) c)); cbn [negb].
      * eapply returns_weaken; [|apply IH].
        -- intros s' [Hw He]. split; [done|]. by eapply elsewhere_trans.
        -- unfold queued. subst s3. simpl_state. rewrite lookup_delete_eq. lia.
        -- done.
        -- left. subst s3. simpl_state. by rewrite lookup_delete_eq.
      * unfold _resetDocument. unfold_monad. cbn [returns]. split.
        -- by eapply (wf_reset id s3).
        -- eapply elsewhere_trans; [exact He3|]. solve_elsewhere.
    + destruct (applied_success (applyChange (doc_content obj) c)); cbn [negb].
      * eapply returns_weaken; [|apply IH].
        -- intros s' [Hw He]. split; [done|]. by eapply elsewhere_trans.
        -- unfold queued. subst s2. simpl_state. rewrite lookup_insert_eq. lia.
        -- done.
        -- right. subst s2. simpl_state. by rewrite Hd.
      * unfold _resetDocument. unfold_monad. cbn [returns]. split.
        -- by eapply (wf_reset id s2).
        -- eapply elsewhere_trans; [exact He2|]. solve_elsewhere.
Qed.

Lemma processNextChange_wf (id : Z) (s : State) :
  wf (Some id) s ->
  _documentDeferreds s !! id = None \/ is_Some (_documents s !! id) ->
  returns (_processNextChange id s)
          (fun s' => wf None s' /\ elsewhere (Some id) s s').
Proof.
  intros Hwf Hdoc. unfold DocumentManager._processNextChange.
  apply processNextChange_fuel_wf; [lia | done | done].
Qed.

Lemma handleImageChanged_wf (change : Change) (s : State) :
  wf None s ->
  returns (_handleImageChanged change s)
          (fun s' => wf None s' /\ elsewhere (change_id change) s s').
Proof.
  intros Hwf. unfold DocumentManager._handleImageChanged.
  destruct (change_id change) as [id|] eqn:Hid.
  2:{ cbn. split; [by apply (wf_same None s)|]. by intros k _. }
  destruct (falsy (Some id)).
  { cbn. split; [by apply (wf_same None s)|]. by intros k _. }
  unfold_monad.
  destruct (_documentDeferreds s !! id) as [df|] eqn:Hdf.
  - destruct (wf_has_queue _ _ Hwf id df Hdf) as [q Hq].
    rewrite (bool_decide_eq_false_2 (Some df = None)) by done. cbn [andb].
    rewrite Hq, (bool_decide_eq_false_2 (Some q = None)) by done.
    rewrite Hq. cbn [default from_option Datatypes.id]. simpl_state.
    rewrite Hdf, (bool_decide_eq_false_2 (Some df = None)), andb_false_r by done.
    cbn [returns]. split.
    + by eapply (wf_push None id df q change s).
    + solve_elsewhere.
  - rewrite (bool_decide_eq_true_2 (None = None)) by done. cbn [andb].
    destruct (_documents s !! id) as [d|] eqn:Hd.
    2:{ rewrite (bool_decide_eq_true_2 (None = None)) by done.
        cbn [returns]. split; [done | apply elsewhere_refl]. }
    rewrite (bool_decide_eq_false_2 (Some d = None)) by done.
    pose proof (wf_idle _ _ Hwf id Hdf) as Hidle.
    apply queued_zero in Hidle as [Hq|Hq]; rewrite Hq.
    + rewrite (bool_decide_eq_true_2 (None = None)) by done.
      simpl_state. rewrite lookup_insert_eq.
      cbn [default from_option Datatypes.id app length Nat.eqb andb].
      rewrite Hdf, (bool_decide_eq_true_2 (None = None)), Hd by done.
      unfold defer. unfold_monad. simpl_state.
      eapply returns_weaken; [|apply processNextChange_wf].
      * intros s' [Hw He]. split; [done|].
        eapply elsewhere_trans; [|exact He]. solve_elsewhere.
      * eapply (wf_ready_push id d change s); try done.
        simpl_state. by rewrite insert_insert_eq.
      * right. simpl_state. by rewrite Hd.
    + rewrite (bool_decide_eq_false_2 (Some [] = None)) by done.
      rewrite Hq. cbn [default from_option Datatypes.id app length Nat.eqb andb].
      simpl_state.
      rewrite Hdf, (bool_decide_eq_true_2 (None = None)), Hd by done.
      unfold defer. unfold_monad. simpl_state.
      eapply returns_weaken; [|apply processNextChange_wf].
      * intros s' [Hw He]. split; [done|].
        eapply elsewhere_trans; [|exact He]. solve_elsewhere.
      * by eapply (wf_ready_push id d change s).
      * right. simpl_state. by rewrite Hd.
Qed.

Lemma getDocument_wf (id : Z) (s : State) :
  wf None s ->
  returns (getDocument id s)
          (fun s' => wf None s' /\ elsewhere (Some id) s s').
Proof.
  intros Hwf. unfold getDocument. unfold_monad.
  destruct (_documentDeferreds s !! id) as [df|] eqn:Hdf.
  { cbn. split; [done | apply elsewhere_refl]. }
  destruct (_documents s !! id) as [d|].
  { cbn. split; [done | apply elsewhere_refl]. }
  rewrite initDocument_returns. cbn [returns]. split.
  - by eapply (wf_init id s).
  - solve_elsewhere.
Qed.

(** Every reaction in a state where the manager keeps its invariant true
    ends with the invariant true again and touches no key other than the
    one of the event; and only the failure of a request can throw. *)
Lemma react_wf (e : Event) (s : State) :
  wf None s ->
  match react e s with
  | Returns _ s' => wf None s' /\ elsewhere (eventKey e s) s s'
  | TypeError s' => notRejection e = false /\ elsewhere None s s'
  | OutOfFuel => False
  end.
Proof.
  intros Hwf. destruct e as [id|change|request raw|request err|d];
    cbn [DocumentManager.react eventKey notRejection].
  - unfold_monad. pose proof (getDocument_wf id s Hwf) as H.
    by destruct (getDocument id s).
  - pose proof (handleImageChanged_wf change s Hwf) as H.
    by destruct (_handleImageChanged change s).
  - unfold settleRequest. unfold_monad.
    destruct (requests s !! request) as [[id []]|] eqn:Hr; cbn [fmap option_fmap option_map request_id];
      try (split; [done | apply elsewhere_refl]).
    unfold DocumentManager._resetDocument_fulfilled. unfold_monad. simpl_state.
    match goal with |- context [DocumentManager._processNextChange _ id ?t] =>
      pose proof (processNextChange_wf id t) as H;
      destruct (_processNextChange id t) as [[] s'|s'|]
    end.
    + destruct H as [Hw He].
      * eapply (wf_install id (newDocument raw)
                  (with_requests <[request := mkRequest id true]> s)); try done.
        by eapply (wf_request_done id request s).
      * right. simpl_state. by rewrite lookup_insert_eq.
      * split; [done|]. eapply elsewhere_trans; [|exact He]. solve_elsewhere.
    + exfalso. apply H.
      * eapply (wf_install id (newDocument raw)
                  (with_requests <[request := mkRequest id true]> s)); try done.
        by eapply (wf_request_done id request s).
      * right. simpl_state. by rewrite lookup_insert_eq.
    + exfalso. apply H.
      * eapply (wf_install id (newDocument raw)
                  (with_requests <[request := mkRequest id true]> s)); try done.
        by eapply (wf_request_done id request s).
      * right. simpl_state. by rewrite lookup_insert_eq.
  - unfold settleRequest. unfold_monad.
    destruct (requests s !! request) as [[id []]|] eqn:Hr; cbn [fmap option_fmap option_map request_id];
      try (split; [done | apply elsewhere_refl]).
    unfold _resetDocument_rejected, log, settle. unfold_monad. simpl_state.
    destruct (_documentDeferreds s !! id) as [df|] eqn:Hdf.
    + split; [|by intros k _].
      eapply (wf_reject id df (Some err)
                (with_requests <[request := mkRequest id true]> s)); try done.
      * simpl_state. destruct (_documents s !! id) as [d|] eqn:Hd; [|done].
        rewrite (wf_exclusive _ _ Hwf id d) in Hdf; done.
      * by eapply (wf_request_done id request s).
    + split; [done|]. by intros k _.
  - unfold_monad.
    destruct (docStore s !! d) as [obj|]; cbn [fmap option_fmap option_map];
      [|split; [done | apply elsewhere_refl]].
    rewrite closedListener_returns. split.
    + by eapply (wf_closed None (doc_listener obj) s).
    + solve_elsewhere.
Qed.

Lemma wf_initial : wf None (initial : State).
Proof.
  split.
  - apply documents_ok_initial.
  - intros id _. unfold queued. cbn. by rewrite lookup_empty.
  - intros id q c. cbn. by rewrite lookup_empty.
  - intros i d c. cbn. by destruct i.
  - intros df v. cbn. by destruct df.
  - intros id df. cbn. by rewrite lookup_empty.
  - intros id df. cbn. by rewrite lookup_empty.
  - intros id df _. cbn. by rewrite lookup_empty.
  - intros id d _. cbn. by rewrite lookup_empty.
Qed.

(** The invariant holds in every state the manager reaches. *)
Lemma run_wf (events : list Event) :
  forall s s', wf None s -> run events s = Returns tt s' -> wf None s'.
Proof.
  induction events as [|e events IH]; intros s s' Hwf.
  - cbn. unfold_monad. by intros [= <-].
  - cbn [DocumentManager.run]. unfold_monad.
    pose proof (react_wf e s Hwf) as He.
    destruct (react e s) as [[] s1|s1|]; [|done..].
    apply IH, He.
Qed.

Lemma reached_wf (events : list Event) (s : State) :
  run events initial = Returns tt s -> wf None s.
Proof. apply run_wf, wf_initial. Qed.

(** X6: in every state the manager reaches, a [getDocument] call, a
    change, a delivered document and a "closed" signal are handled to the
    end without an exception; in particular [_applyChange] is never called
    on a missing document.  (Only the failure callback can throw.) *)
Theorem reaction_never_throws (events : list Event) (e : Event) (s : State) :
  run events initial = Returns tt s ->
  notRejection e = true ->
  exists s', react e s = Returns tt s'.
Proof.
  intros Hrun Hne. pose proof (react_wf e s (reached_wf events s Hrun)) as H.
  destruct (react e s) as [[] s'|s'|]; [by eexists| |done].
  destruct H as [H _]. congruence.
Qed.

(** X7: in every state the manager reaches, a reaction touches one key at
    most: every key other than the one the event is about keeps its
    document, its registry entry and its queue. *)
Theorem other_keys_untouched
    (events : list Event) (e : Event) (k : Z) (s : State) :
  run events initial = Returns tt s ->
  aboutOther e s k = true ->
  lands (react e s) (sameAt k s).
Proof.
  intros Hrun Hk. unfold aboutOther in Hk.
  apply negb_true_iff, bool_decide_eq_false_1 in Hk.
  pose proof (react_wf e s (reached_wf events s Hrun)) as H.
  destruct (react e s) as [[] s'|s'|]; cbn [lands]; [| |done].
  - destruct H as [_ H]. by apply H.
  - destruct H as [_ H]. by apply H.
Qed.

(** X8: in every state the manager reaches, a document that [getDocument]
    hands out at once is a Document object requested for that key, and no
    change is waiting in the queue of the key. *)
Theorem immediate_document_is_current
    (events : list Event) (id : Z) (d : DocRef) (s s' : State) :
  run events initial = Returns tt s ->
  getDocument id s = Returns (FulfilledWith d) s' ->
  s' = s /\
  queued id s = O /\
  exists obj, docStore s !! d = Some obj /\ doc_listener obj = id.
Proof.
  intros Hrun Hget. pose proof (reached_wf events s Hrun) as Hwf.
  unfold getDocument, mbind, M_bind, bind, mret, M_ret, ret, get in Hget.
  destruct (_documentDeferreds s !! id) as [df|] eqn:Hdf; [done|].
  destruct (_documents s !! id) as [d'|] eqn:Hd.
  - injection Hget as <- <-. split; [done|]. split.
    + by apply (wf_idle _ _ Hwf).
    + by apply (wf_documents _ _ Hwf).
  - by rewrite initDocument_returns in Hget.
Qed.

(** X9: in every state the manager reaches, every [_applyChange] call
    recorded so far was made on a Document object with a change whose id is
    the id that document was requested for. *)
Theorem changes_reach_their_own_document
    (events : list Event) (i : nat) (d : DocRef) (c : Change) (s : State) :
  run events initial = Returns tt s ->
  applyCalls s !! i = Some (d, c) ->
  exists obj, docStore s !! d = Some obj /\ change_id c = Some (doc_listener obj).
Proof.
  intros Hrun. apply (wf_calls _ _ (reached_wf events s Hrun)).
Qed.

(** X10: in every state the manager reaches, a deferred that is resolved
    is resolved with a Document object, never with [undefined]. *)
Theorem resolved_with_a_document
    (events : list Event) (df : DeferredRef) (v : option DocRef) (s : State) :
  run events initial = Returns tt s ->
  deferredStore s !! df = Some (Resolved v) ->
  exists d obj, v = Some d /\ docStore s !! d = Some obj.
Proof.
  intros Hrun. apply (wf_resolved _ _ (reached_wf events s Hrun)).
Qed.

(** X11: in every state the manager reaches, a key whose registered
    deferred is unsettled has a request for the entire document
    outstanding. *)
Theorem waiting_deferred_has_request
    (events : list Event) (id : Z) (df : DeferredRef) (s : State) :
  run events initial = Returns tt s ->
  _documentDeferreds s !! id = Some df ->
  deferredStore s !! df = Some Unsettled ->
  exists request, requests s !! request = Some (mkRequest id false).
Proof.
  intros Hrun. by apply (wf_waiting _ _ (reached_wf events s Hrun)).
Qed.

Lemma callApplyChange_counts (d : DocRef) (c : Change) (s : State) :
  lands (callApplyChange d c s)
        (fun s' => requests s' = requests s /\
                   length (applyCalls s') <= S (length (applyCalls s))).
Proof.
  unfold DocumentManager.callApplyChange. unfold_monad.
  destruct (docStore s !! d) as [obj|]; [|cbn; split; [done | lia]].
  simpl_state.
  destruct (applied_closed (applyChange (doc_content obj) c)).
  - rewrite closedListener_returns. cbn [lands]. simpl_state.
    split; [done|]. rewrite length_app. cbn. lia.
  - cbn [lands]. simpl_state. split; [done|]. rewrite length_app. cbn. lia.
Qed.

Lemma processNextChange_fuel_bounded (id : Z) :
  forall (n : nat) (s : State),
    lands (_processNextChange_fuel n id s)
          (fun s' =>
             length (applyCalls s') <= length (applyCalls s) + queued id s /\
             (requests s' = requests s \/
              requests s' = requests s ++ [mkRequest id false])).
Proof.
  induction n as [|n IH]; intros s; [done|].
  cbn [DocumentManager._processNextChange_fuel]. unfold_monad.
  unfold queued at 1.
  destruct (_documentChanges s !! id) as [[|c rest]|] eqn:Hq.
  - destruct (_documentDeferreds s !! id); cbn; (split; [lia | by left]).
  - destruct (_documentDeferreds s !! id) as [df|];
      [|cbn; split; [lia | by left]].
    unfold log. unfold_monad. simpl_state.
    destruct (_documents s !! id) as [d|]; [|cbn; split; [lia | by left]].
    match goal with |- context [DocumentManager.callApplyChange _ d c ?t] =>
      pose proof (callApplyChange_counts d c t) as Hn;
      pose proof (callApplyChange_calm d c t) as Hc;
      assert (Hq1 : queued id t = length rest)
        by (unfold queued; simpl_state; by rewrite lookup_insert_eq);
      destruct (callApplyChange d c t) as [b s2|s2|]
    end; cbn [lands ends] in *; [| |done].
    + destruct Hn as [Hr Hn]. simpl_state_in Hr. simpl_state_in Hn. destruct Hc as [_ Hc]. specialize (Hc id).
      destruct b; cbn [negb].
      * eapply lands_weaken; [|apply IH].
        intros s' [Hcalls Hreq]. cbn beta. rewrite <- Hr.
        split; [cbn [length]; lia | done].
      * unfold _resetDocument, log. unfold_monad. cbn [lands]. simpl_state.
        split; [cbn [length]; lia|]. right. by rewrite Hr.
    + destruct Hn as [Hr Hn]. simpl_state_in Hr. simpl_state_in Hn.
      split; [cbn [length]; lia | by left].
  - by destruct (_documentDeferreds s !! id); cbn; (split; [lia | left]).
Qed.

(** X12: one run of [_processNextChange] ends, makes at most as many
    [_applyChange] calls as there were changes in the queue of the key, and
    issues at most one request, which is for that key. *)
Theorem processNextChange_is_bounded (id : Z) (s : State) :
  ends (_processNextChange id s)
       (fun s' =>
          length (applyCalls s') <= length (applyCalls s) + queued id s /\
          (requests s' = requests s \/
           requests s' = requests s ++ [mkRequest id false])).
Proof.
  pose proof (processNextChange_evolves id s) as He.
  unfold DocumentManager._processNextChange in *.
  pose proof (processNextChange_fuel_bounded id (S (queued id s)) s) as Hb.
  by destruct (_processNextChange_fuel (S (queued id s)) id s).
Qed.

(** A key with neither document nor registry entry: the next
    [getDocument] starts anew. *)
Lemma getDocument_startsAnew (id : Z) (s : State) :
  _documents s !! id = None ->
  _documentDeferreds s !! id = None ->
  startsAnew id s.
Proof.
  intros Hd Hdf. eexists. split.
  { unfold getDocument. unfold_monad. rewrite Hdf, Hd, initDocument_returns.
    reflexivity. }
  simpl_state. rewrite !lookup_insert_eq, lookup_delete_eq.
  repeat split; try done. by rewrite lookup_app_r, Nat.sub_diag.
Qed.

(** C5: when the document of a key emits "closed", the key loses its
    document, its queue and its registry entry, a registered deferred is
    rejected, and the next [getDocument(id)] registers a new unsettled
    deferred, starts an empty queue and issues a new request.

    Between two reactions, in every state the manager reaches, a key that
    has a document has no registry entry, so the signal finds no deferred
    to reject (first part).  A deferred is registered beside the document
    only while [_processNextChange] runs; there the signal comes out of
    [_applyChange], and the registered unsettled deferred is rejected and
    unregistered, whether the change was applied or not (second part).
    This is what happens when an outstanding request delivers a document
    and the first queued change closes it: the deferred that the caller of
    [getDocument] is waiting on is rejected (third part). *)
Theorem closed_clears_key :
  (forall (events : list Event) (id : Z) (d : DocRef) (s : State),
     run events initial = Returns tt s ->
     _documents s !! id = Some d ->
     _documentDeferreds s !! id = None /\
     exists s',
       react (DocumentClosed d) s = Returns tt s' /\
       _documents s' !! id = None /\
       _documentChanges s' !! id = None /\
       _documentDeferreds s' !! id = None /\
       deferredStore s' = deferredStore s /\
       startsAnew id s') /\
  (forall (id : Z) (d : DocRef) (obj : DocumentObj) (df : DeferredRef)
          (c : Change) (rest : list Change) (s : State),
     _documents s !! id = Some d ->
     docStore s !! d = Some obj ->
     doc_listener obj = id ->
     _documentDeferreds s !! id = Some df ->
     deferredStore s !! df = Some Unsettled ->
     _documentChanges s !! id = Some (c :: rest) ->
     applied_closed (applyChange (doc_content obj) c) = true ->
     exists s',
       _processNextChange id s = Returns tt s' /\
       applyCalls s' = applyCalls s ++ [(d, c)] /\
       _documents s' !! id = None /\
       queued id s' = O /\
       _documentDeferreds s' !! id = None /\
       deferredStore s' !! df = Some (Rejected None) /\
       startsAnew id s') /\
  (forall (request : RequestRef) (id : Z) (raw : Raw) (df : DeferredRef)
          (c : Change) (rest : list Change) (s : State),
     requests s !! request = Some (mkRequest id false) ->
     _documentDeferreds s !! id = Some df ->
     deferredStore s !! df = Some Unsettled ->
     _documentChanges s !! id = Some (c :: rest) ->
     applied_closed (applyChange (newDocument raw) c) = true ->
     exists s',
       react (RequestFulfilled request raw) s = Returns tt s' /\
       applyCalls s' = applyCalls s ++ [(length (docStore s), c)] /\
       _documents s' !! id = None /\
       queued id s' = O /\
       _documentDeferreds s' !! id = None /\
       deferredStore s' !! df = Some (Rejected None) /\
       startsAnew id s').
Proof.
  assert (Hprocessing :
    forall (id : Z) (d : DocRef) (obj : DocumentObj) (df : DeferredRef)
           (c : Change) (rest : list Change) (s : State),
      _documents s !! id = Some d ->
      docStore s !! d = Some obj ->
      doc_listener obj = id ->
      _documentDeferreds s !! id = Some df ->
      deferredStore s !! df = Some Unsettled ->
      _documentChanges s !! id = Some (c :: rest) ->
      applied_closed (applyChange (doc_content obj) c) = true ->
      exists s',
        _processNextChange id s = Returns tt s' /\
        applyCalls s' = applyCalls s ++ [(d, c)] /\
        _documents s' !! id = None /\
        queued id s' = O /\
        _documentDeferreds s' !! id = None /\
        deferredStore s' !! df = Some (Rejected None) /\
        startsAnew id s').
  { intros id d obj df c rest s Hd Hobj Hl Hdf Hu Hq Hclosed.
    assert (Hrej : settled df (Rejected None) (deferredStore s) !! df
                   = Some (Rejected None)).
    { unfold settled. rewrite Hu. apply list_lookup_insert_eq.
      by eapply lookup_lt_Some. }
    unfold DocumentManager._processNextChange.
    rewrite (queued_lookup _ _ _ Hq). cbn [length].
    rewrite (processNextChange_fuel_closed _ _ _ _ _ _ _ _ Hd Hobj Hl Hdf Hq Hclosed).
    destruct (applied_success (applyChange (doc_content obj) c)); cbn [negb].
    - cbn [DocumentManager._processNextChange_fuel]. unfold_monad. simpl_state.
      rewrite !lookup_delete_eq.
      eexists. split; [reflexivity|]. unfold queued. simpl_state.
      rewrite !lookup_delete_eq. repeat split; try done.
      apply getDocument_startsAnew; simpl_state; by rewrite lookup_delete_eq.
    - unfold _resetDocument, log. unfold_monad. simpl_state.
      eexists. split; [reflexivity|]. unfold queued. simpl_state.
      rewrite !lookup_delete_eq, lookup_insert_eq. repeat split; try done.
      apply getDocument_startsAnew; simpl_state; by rewrite lookup_delete_eq. }
  split; [|split; [exact Hprocessing|]].
  - intros events id d s Hrun Hd.
    pose proof (reached_wf events s Hrun) as Hwf.
    assert (Hdf : _documentDeferreds s !! id = None)
      by by apply (wf_exclusive _ _ Hwf id d).
    split; [exact Hdf|].
    destruct (wf_documents _ _ Hwf id d Hd) as (obj & Hobj & Hl).
    cbn [DocumentManager.react]. unfold_monad. rewrite Hobj, Hl.
    rewrite closedListener_returns, Hdf.
    eexists. split; [reflexivity|]. simpl_state. rewrite !lookup_delete_eq.
    repeat split; try done.
    apply getDocument_startsAnew; simpl_state; by rewrite lookup_delete_eq.
  - intros request id raw df c rest s Hr Hdf Hu Hq Hclosed.
    unfold DocumentManager.react, settleRequest. unfold_monad. rewrite Hr.
    unfold DocumentManager._resetDocument_fulfilled. unfold_monad. simpl_state.
    match goal with
    | |- context [_processNextChange id ?st] =>
        destruct (Hprocessing id (length (docStore s))
                    (mkDocumentObj (newDocument raw) id) df c rest st)
          as (s' & Hrun & Hcalls & Hdocs & Hqueue & Hreg & Hrej & Hnew)
    end.
    + simpl_state. by rewrite lookup_insert_eq.
    + simpl_state. by rewrite lookup_app_r, Nat.sub_diag.
    + reflexivity.
    + simpl_state. exact Hdf.
    + simpl_state. exact Hu.
    + simpl_state. exact Hq.
    + exact Hclosed.
    + exists s'. rewrite Hrun. simpl_state_in Hcalls. by repeat split.
Qed.

End Proofs.

(** ** The properties at concrete states *)

Lemma fetch_failure_keeps_deferred_witness :
  requests Sample.fetching !! 0 = Some (mkRequest 7 false) /\
  _documentDeferreds Sample.fetching !! 7%Z = Some 0 /\
  deferredStore Sample.fetching !! 0 = Some Unsettled /\
  exists s',
    react Sample.newDocument Sample.applyChange (RequestRejected 0 9%Z)
          Sample.fetching = Returns tt s' /\
    deferredStore s' !! 0 = Some (Rejected (Some 9%Z)) /\
    _documentDeferreds s' !! 7%Z = Some 0 /\
    getDocument 7 s' = Returns (PromiseOf 0) s' /\
    length (requests s') = length (requests Sample.fetching).
Proof.
  split; [reflexivity|]. split; [reflexivity|]. split; [reflexivity|].
  apply (fetch_failure_keeps_deferred Sample.newDocument Sample.applyChange
           7 0 0 9%Z Sample.fetching); reflexivity.
Defined.

Lemma closed_then_failure_throws_witness :
  requests Sample.refetching !! 1 = Some (mkRequest 7 false) /\
  docStore Sample.refetching !! 0 = Some (mkDocumentObj [100; 0]%Z 7) /\
  exists s',
    run Sample.newDocument Sample.applyChange
        [DocumentClosed 0; RequestRejected 1 9%Z] Sample.refetching
    = TypeError s' /\
    _documentDeferreds s' !! 7%Z = None.
Proof.
  split; [reflexivity|]. split; [reflexivity|].
  apply (closed_then_failure_throws Sample.newDocument Sample.applyChange
           7 1 0 (mkDocumentObj [100; 0]%Z 7) 9%Z Sample.refetching);
    reflexivity.
Defined.

(** C2 as stated fails at the key 0: key 0 is Ready with document 0, the
    change [{id: 0, body: 5}] would be applied by the document, but
    [_handleImageChanged] drops it ([!id]), so no [_applyChange] call is
    made. *)
Lemma changes_applied_in_order_fails_at_zero :
  ~ changes_applied_in_order (Err := Z) Sample.newDocument Sample.applyChange 0.
Proof.
  intros Hclaim.
  destruct (proj1 Hclaim Sample.ready0 0 (mkDocumentObj [100%Z] 0)
                         [Sample.change 0 5])
    as (s' & Hrun & Hcalls & _); try reflexivity.
  { by vm_compute. }
  vm_compute in Hrun. injection Hrun as <-.
  vm_compute in Hcalls. discriminate Hcalls.
Qed.

Lemma changes_applied_in_order_nonzero_witness :
  7%Z <> 0%Z /\
  ready 7 0 Sample.ready7 /\
  docStore Sample.ready7 !! 0 = Some (mkDocumentObj [100%Z] 7) /\
  allFor 7 [Sample.change 7 5; Sample.change 7 6] = true /\
  allApplied Sample.applyChange [100%Z] [Sample.change 7 5; Sample.change 7 6] = true /\
  exists s',
    run Sample.newDocument Sample.applyChange
        (map ImageChanged [Sample.change 7 5; Sample.change 7 6]) Sample.ready7
    = Returns tt s' /\
    applyCalls s' = applyCalls Sample.ready7
                    ++ map (pair 0) [Sample.change 7 5; Sample.change 7 6] /\
    doc_content <$> docStore s' !! 0
    = Some (applyAll Sample.applyChange [100%Z]
                     [Sample.change 7 5; Sample.change 7 6]) /\
    ready 7 0 s'.
Proof.
  assert (Hne : 7%Z <> 0%Z) by lia.
  assert (Hready : ready 7 0 Sample.ready7) by by vm_compute.
  split; [exact Hne|]. split; [exact Hready|].
  split; [reflexivity|]. split; [reflexivity|]. split; [reflexivity|].
  apply (proj1 (changes_applied_in_order_nonzero (Err := Z)
                  Sample.newDocument Sample.applyChange 7 Hne)
               Sample.ready7 0 (mkDocumentObj [100%Z] 7)
               [Sample.change 7 5; Sample.change 7 6]);
    [exact Hready | reflexivity..].
Defined.

Lemma getDocument_contract_witness :
  getDocument 7 Sample.fetching = Returns (PromiseOf 0) Sample.fetching /\
  getDocument 7 Sample.ready7 = Returns (FulfilledWith 0) Sample.ready7 /\
  exists s',
    getDocument 8 Sample.ready7 = Returns (PromiseOf 1) s' /\
    _documentDeferreds s' = <[8%Z := 1]> (_documentDeferreds Sample.ready7) /\
    deferredStore s' = deferredStore Sample.ready7 ++ [Unsettled] /\
    requests s' = requests Sample.ready7 ++ [mkRequest 8 false] /\
    _documentChanges s' = <[8%Z := []]> (_documentChanges Sample.ready7) /\
    _documents s' = _documents Sample.ready7 /\
    getDocument 8 s' = Returns (PromiseOf 1) s'.
Proof.
  split; [|split].
  - apply (proj1 (getDocument_contract 7 Sample.fetching) 0). reflexivity.
  - apply (proj1 (proj2 (getDocument_contract 7 Sample.ready7)) 0); reflexivity.
  - apply (proj2 (proj2 (getDocument_contract 8 Sample.ready7))); reflexivity.
Defined.



Lemma closed_clears_key_witness :
  (Sample.run [CallGetDocument 7; RequestFulfilled 0 100%Z] initial
   = Returns tt Sample.ready7 /\
   _documents Sample.ready7 !! 7%Z = Some 0 /\
   _documentDeferreds Sample.ready7 !! 7%Z = None /\
   exists s',
     react Sample.newDocument Sample.applyChange (DocumentClosed 0) Sample.ready7
     = Returns tt s' /\
     _documents s' !! 7%Z = None /\
     _documentChanges s' !! 7%Z = None /\
     _documentDeferreds s' !! 7%Z = None /\
     deferredStore s' = deferredStore Sample.ready7 /\
     startsAnew 7 s') /\
  (deferredStore (Sample.drainingThen [9; 5]%Z) !! 0 = Some Unsettled /\
   exists s',
     _processNextChange Sample.applyChangeClosing 7 (Sample.drainingThen [9; 5]%Z)
     = Returns tt s' /\
     applyCalls s' = applyCalls (Sample.drainingThen [9; 5]%Z)
                     ++ [(0, Sample.change 7 9)] /\
     _documents s' !! 7%Z = None /\
     queued 7 s' = 0 /\
     _documentDeferreds s' !! 7%Z = None /\
     deferredStore s' !! 0 = Some (Rejected None) /\
     startsAnew 7 s') /\
  (requests Sample.queued95 !! 0 = Some (mkRequest 7 false) /\
   _documentDeferreds Sample.queued95 !! 7%Z = Some 0 /\
   deferredStore Sample.queued95 !! 0 = Some Unsettled /\
   exists s',
     react Sample.newDocument Sample.applyChangeClosing
           (RequestFulfilled 0 100%Z) Sample.queued95
     = Returns tt s' /\
     applyCalls s' = applyCalls Sample.queued95 ++ [(0, Sample.change 7 9)] /\
     _documents s' !! 7%Z = None /\
     queued 7 s' = 0 /\
     _documentDeferreds s' !! 7%Z = None /\
     deferredStore s' !! 0 = Some (Rejected None) /\
     startsAnew 7 s').
Proof.
  assert (Hrun : Sample.run [CallGetDocument 7; RequestFulfilled 0 100%Z] initial
                 = Returns tt Sample.ready7) by (vm_compute; reflexivity).
  split; [|split].
  - split; [exact Hrun|]. split; [reflexivity|].
    apply (proj1 (closed_clears_key Sample.newDocument Sample.applyChange)
                 [CallGetDocument 7; RequestFulfilled 0 100%Z] 7%Z 0
                 Sample.ready7 Hrun).
    reflexivity.
  - split; [reflexivity|].
    apply (proj1 (proj2 (closed_clears_key Sample.newDocument
                                           Sample.applyChangeClosing))
                 7%Z 0 (mkDocumentObj [100%Z] 7%Z) 0 (Sample.change 7 9)
                 [Sample.change 7 5] (Sample.drainingThen [9; 5]%Z));
      reflexivity.
  - do 3 (split; [reflexivity|]).
    apply (proj2 (proj2 (closed_clears_key Sample.newDocument
                                           Sample.applyChangeClosing))
                 0 7%Z 100%Z 0 (Sample.change 7 9) [Sample.change 7 5]
                 Sample.queued95);
      reflexivity.
Defined.

(** C6 as stated fails: key 7 was Ready with document 0, a change could not
    be applied, and the request 1 issued by [_resetDocument] is outstanding
    with deferred 1 waiting; document 0 emits "closed", then request 1
    delivers the raw description 200: the document built from it is
    installed for key 7. *)
Lemma late_result_not_ignored :
  ~ late_result_ignored (Err := Z) Sample.newDocument Sample.applyChange.
Proof.
  intros Hclaim.
  destruct (Hclaim Sample.refetching 7%Z 1 0 (mkDocumentObj [100; 0]%Z 7) 1 200%Z)
    as (s' & Hrun & _ & Hnone); try reflexivity.
  vm_compute in Hrun. injection Hrun as <-.
  vm_compute in Hnone. discriminate Hnone.
Qed.

Lemma late_result_installed_witness :
  requests Sample.refetching !! 1 = Some (mkRequest 7 false) /\
  docStore Sample.refetching !! 0 = Some (mkDocumentObj [100; 0]%Z 7) /\
  _documentDeferreds Sample.refetching !! 7%Z = Some 1 /\
  deferredStore Sample.refetching !! 1 = Some Unsettled /\
  exists s',
    run Sample.newDocument Sample.applyChange
        [DocumentClosed 0; RequestFulfilled 1 200%Z] Sample.refetching
    = Returns tt s' /\
    deferredStore s' !! 1 = Some (Rejected None) /\
    _documentDeferreds s' !! 7%Z = None /\
    _documentChanges s' !! 7%Z = None /\
    _documents s' !! 7%Z = Some 1 /\
    docStore s' !! 1 = Some (mkDocumentObj [200%Z] 7).
Proof.
  split; [reflexivity|]. split; [reflexivity|].
  split; [reflexivity|]. split; [reflexivity|].
  destruct (late_result_installed Sample.newDocument Sample.applyChange
              7 1 0 (mkDocumentObj [100; 0]%Z 7) 1 200%Z Sample.refetching)
    as (s' & Hrun & _ & Hrej & Hreg & Hq & Hd & Hdoc); try reflexivity.
  exists s'. repeat (split; [assumption|]). exact Hdoc.
Defined.

Lemma registry_invariant_witness :
  registry_ok (initial : Sample.State) /\
  ends (react Sample.newDocument Sample.applyChange (CallGetDocument 7) initial)
       (fun s' : Sample.State => registry_ok s' /\ never_replaced initial s') /\
  ends (Sample.run [CallGetDocument 7; RequestFulfilled 0 100%Z;
                    ImageChanged (Sample.change 7 0); DocumentClosed 0]
                   initial)
       registry_ok.
Proof.
  pose proof (registry_invariant (Err := Z) Sample.newDocument Sample.applyChange)
    as (Hinit & Hstep & _ & Hreach).
  split; [exact Hinit|]. split.
  - exact (Hstep (CallGetDocument 7) initial Hinit).
  - exact (Hreach [CallGetDocument 7; RequestFulfilled 0 100%Z;
                   ImageChanged (Sample.change 7 0); DocumentClosed 0]).
Defined.

Lemma handleImageChanged_unknown_key_witness :
  _documents Sample.ready7 !! 8%Z = None /\
  _documentDeferreds Sample.ready7 !! 8%Z = None /\
  exists s',
    _handleImageChanged Sample.applyChange (Sample.change 8 5) Sample.ready7
    = Returns tt s' /\
    _documents s' = _documents Sample.ready7 /\
    _documentDeferreds s' = _documentDeferreds Sample.ready7 /\
    _documentChanges s' = _documentChanges Sample.ready7 /\
    docStore s' = docStore Sample.ready7 /\
    deferredStore s' = deferredStore Sample.ready7 /\
    requests s' = requests Sample.ready7 /\
    applyCalls s' = applyCalls Sample.ready7.
Proof.
  split; [reflexivity|]. split; [reflexivity|].
  apply (handleImageChanged_unknown_key Sample.applyChange
           (Sample.change 8 5) 8 Sample.ready7); reflexivity.
Defined.

Lemma handleImageChanged_falsy_id_witness :
  change_id (Sample.change 0 5) = Some 0%Z /\
  _handleImageChanged Sample.applyChange (Sample.change 0 5) Sample.ready0
  = Returns tt
      (with_logger (fun l => l ++ [WarnUnknownDocument (Sample.change 0 5)])
                   Sample.ready0).
Proof.
  split; [reflexivity|].
  apply (handleImageChanged_falsy_id Sample.applyChange
           (Sample.change 0 5) Sample.ready0).
  right. reflexivity.
Defined.

(** ** Three runs of the manager *)

(** Key 7 is unknown; [getDocument(7)] issues a request, the request
    delivers the raw description 100, and the deferred is resolved with the
    document built from it; nothing is queued and no deferred stays
    registered. *)
Example run_first_request :
  Sample.run [CallGetDocument 7; RequestFulfilled 0 100%Z] initial
  = Returns tt
      (mkState {[ 7%Z := 0 ]} ∅ {[ 7%Z := [] ]}
               [mkDocumentObj [100%Z] 7] [Resolved (Some 0)]
               [mkRequest 7 true] [] []).
Proof. vm_compute. reflexivity. Qed.

(** Key 7 is Ready and a change arrives that the document applies: the
    document reflects it and no deferred stays registered. *)
Example run_change_applied :
  Sample.run [ImageChanged (Sample.change 7 5)] Sample.ready7
  = Returns tt
      (mkState {[ 7%Z := 0 ]} ∅ {[ 7%Z := [] ]}
               [mkDocumentObj [100; 5]%Z 7]
               [Resolved (Some 0); Resolved (Some 0)]
               [mkRequest 7 true]
               [(0, Sample.change 7 5)]
               [DebugApplyingChange (Sample.change 7 5)]).
Proof. vm_compute. reflexivity. Qed.

(** Key 7 is Ready and a change arrives that the document cannot apply: a
    second request is issued, and once it delivers the raw description 200
    the key has the document built from it and the waiting deferred is
    resolved with that document. *)
Example run_change_not_applied :
  Sample.run [ImageChanged (Sample.change 7 0); RequestFulfilled 1 200%Z]
             Sample.ready7
  = Returns tt
      (mkState {[ 7%Z := 1 ]} ∅ {[ 7%Z := [] ]}
               [mkDocumentObj [100; 0]%Z 7; mkDocumentObj [200%Z] 7]
               [Resolved (Some 0); Resolved (Some 1)]
               [mkRequest 7 true; mkRequest 7 true]
               [(0, Sample.change 7 0)]
               [DebugApplyingChange (Sample.change 7 0); WarnUnableToApply]).
Proof. vm_compute. reflexivity. Qed.

(** The state [Sample.draining] is where the manager stands when the
    success callback calls [_processNextChange], after three changes were
    queued while the first request was outstanding. *)
Example draining_reached :
  Sample.run [CallGetDocument 7; ImageChanged (Sample.change 7 5);
              ImageChanged (Sample.change 7 0); ImageChanged (Sample.change 7 6);
              RequestFulfilled 0 100%Z] initial
  = _processNextChange Sample.applyChange 7 Sample.draining.
Proof. vm_compute. reflexivity. Qed.

(** ** The further properties at concrete states *)

Lemma handleImageChanged_without_document_witness :
  _documents Sample.fetching !! 7%Z = None /\
  exists s',
    _handleImageChanged Sample.applyChange (Sample.change 7 5) Sample.fetching
    = Returns tt s' /\
    requests s' = requests Sample.fetching /\
    deferredStore s' = deferredStore Sample.fetching /\
    _documentDeferreds s' = _documentDeferreds Sample.fetching.
Proof.
  split; [reflexivity|].
  destruct (handleImageChanged_without_document Sample.applyChange
              (Sample.change 7 5) 7 Sample.fetching)
    as (s' & Hrun & Hreq & Hst & Hreg & _); try reflexivity.
  exists s'. repeat (split; [assumption|]). exact Hreg.
Defined.

Lemma first_request_with_changes_witness :
  exists s',
    Sample.run (CallGetDocument 7
                  :: map ImageChanged [Sample.change 7 5; Sample.change 7 6]
                  ++ [RequestFulfilled 0 100%Z]) initial
    = Returns tt s' /\
    deferredStore s' !! 0 = Some (Resolved (Some 0)) /\
    docStore s' !! 0 = Some (mkDocumentObj [100; 5; 6]%Z 7) /\
    applyCalls s' = [(0, Sample.change 7 5); (0, Sample.change 7 6)] /\
    getDocument 7 s' = Returns (FulfilledWith 0) s'.
Proof.
  apply (first_request_with_changes Sample.newDocument Sample.applyChange
           7 [Sample.change 7 5; Sample.change 7 6] 100%Z initial);
    reflexivity.
Defined.

Lemma closed_during_apply_stops_witness :
  exists s',
    _processNextChange Sample.applyChangeClosing 7 (Sample.drainingThen [9; 5]%Z)
    = Returns tt s' /\
    applyCalls s' = [(0, Sample.change 7 9)] /\
    requests s' = [mkRequest 7 true] /\
    _documents s' !! 7%Z = None /\
    _documentChanges s' !! 7%Z = None /\
    _documentDeferreds s' !! 7%Z = None /\
    deferredStore s' !! 0 = Some (Rejected None).
Proof.
  apply (closed_during_apply_stops Sample.applyChangeClosing
           7 0 (mkDocumentObj [100%Z] 7) 0 (Sample.change 7 9)
           [Sample.change 7 5] (Sample.drainingThen [9; 5]%Z));
    reflexivity.
Defined.

Lemma closed_and_failure_in_one_call_witness :
  exists s',
    _processNextChange Sample.applyChangeClosing 7
                       (Sample.drainingThen [-9; 5]%Z)
    = Returns tt s' /\
    applyCalls s' = [(0, Sample.change 7 (-9))] /\
    requests s' = [mkRequest 7 true; mkRequest 7 false] /\
    _documents s' !! 7%Z = None /\
    _documentChanges s' !! 7%Z = Some [] /\
    _documentDeferreds s' !! 7%Z = None /\
    deferredStore s' !! 0 = Some (Rejected None).
Proof.
  apply (closed_and_failure_in_one_call Sample.applyChangeClosing
           7 0 (mkDocumentObj [100%Z] 7) 0 (Sample.change 7 (-9))
           [Sample.change 7 5] (Sample.drainingThen [-9; 5]%Z));
    reflexivity.
Defined.

Lemma reaction_never_throws_witness :
  Sample.run [CallGetDocument 7; RequestFulfilled 0 100%Z;
              ImageChanged (Sample.change 7 0)] initial
  = Returns tt Sample.refetching /\
  exists s',
    react Sample.newDocument Sample.applyChange (DocumentClosed 0)
          Sample.refetching = Returns tt s'.
Proof.
  assert (Hrun : Sample.run [CallGetDocument 7; RequestFulfilled 0 100%Z;
                             ImageChanged (Sample.change 7 0)] initial
                 = Returns tt Sample.refetching) by (vm_compute; reflexivity).
  split; [exact Hrun|].
  apply (reaction_never_throws Sample.newDocument Sample.applyChange
           [CallGetDocument 7; RequestFulfilled 0 100%Z;
            ImageChanged (Sample.change 7 0)]
           (DocumentClosed 0) Sample.refetching Hrun).
  reflexivity.
Defined.

Lemma other_keys_untouched_witness :
  Sample.run [CallGetDocument 7; CallGetDocument 8;
              RequestFulfilled 0 100%Z; RequestFulfilled 1 200%Z] initial
  = Returns tt Sample.twoKeys /\
  lands (react Sample.newDocument Sample.applyChange
               (ImageChanged (Sample.change 7 0)) Sample.twoKeys)
        (sameAt 8 Sample.twoKeys).
Proof.
  assert (Hrun : Sample.run [CallGetDocument 7; CallGetDocument 8;
                             RequestFulfilled 0 100%Z; RequestFulfilled 1 200%Z]
                            initial
                 = Returns tt Sample.twoKeys) by (vm_compute; reflexivity).
  split; [exact Hrun|].
  apply (other_keys_untouched Sample.newDocument Sample.applyChange
           [CallGetDocument 7; CallGetDocument 8;
            RequestFulfilled 0 100%Z; RequestFulfilled 1 200%Z]
           (ImageChanged (Sample.change 7 0)) 8 Sample.twoKeys Hrun).
  reflexivity.
Defined.

Lemma immediate_document_is_current_witness :
  Sample.run [CallGetDocument 7; RequestFulfilled 0 100%Z] initial
  = Returns tt Sample.ready7 /\
  getDocument 7 Sample.ready7 = Returns (FulfilledWith 0) Sample.ready7 /\
  queued 7 Sample.ready7 = 0 /\
  exists obj, docStore Sample.ready7 !! 0 = Some obj /\ doc_listener obj = 7%Z.
Proof.
  assert (Hrun : Sample.run [CallGetDocument 7; RequestFulfilled 0 100%Z] initial
                 = Returns tt Sample.ready7) by (vm_compute; reflexivity).
  assert (Hget : getDocument 7 Sample.ready7
                 = Returns (FulfilledWith 0) Sample.ready7) by reflexivity.
  split; [exact Hrun|]. split; [exact Hget|].
  apply (immediate_document_is_current Sample.newDocument Sample.applyChange
           [CallGetDocument 7; RequestFulfilled 0 100%Z] 7 0
           Sample.ready7 Sample.ready7 Hrun Hget).
Defined.

Lemma changes_reach_their_own_document_witness :
  Sample.run [CallGetDocument 7; RequestFulfilled 0 100%Z;
              ImageChanged (Sample.change 7 5)] initial
  = Returns tt Sample.changed /\
  applyCalls Sample.changed !! 0 = Some (0, Sample.change 7 5) /\
  exists obj,
    docStore Sample.changed !! 0 = Some obj /\
    change_id (Sample.change 7 5) = Some (doc_listener obj).
Proof.
  assert (Hrun : Sample.run [CallGetDocument 7; RequestFulfilled 0 100%Z;
                             ImageChanged (Sample.change 7 5)] initial
                 = Returns tt Sample.changed) by (vm_compute; reflexivity).
  split; [exact Hrun|]. split; [reflexivity|].
  apply (changes_reach_their_own_document Sample.newDocument Sample.applyChange
           [CallGetDocument 7; RequestFulfilled 0 100%Z;
            ImageChanged (Sample.change 7 5)] 0 0 (Sample.change 7 5)
           Sample.changed Hrun).
  reflexivity.
Defined.

Lemma resolved_with_a_document_witness :
  Sample.run [CallGetDocument 7; RequestFulfilled 0 100%Z] initial
  = Returns tt Sample.ready7 /\
  deferredStore Sample.ready7 !! 0 = Some (Resolved (Some 0)) /\
  exists d obj, Some 0 = Some d /\ docStore Sample.ready7 !! d = Some obj.
Proof.
  assert (Hrun : Sample.run [CallGetDocument 7; RequestFulfilled 0 100%Z] initial
                 = Returns tt Sample.ready7) by (vm_compute; reflexivity).
  split; [exact Hrun|]. split; [reflexivity|].
  apply (resolved_with_a_document Sample.newDocument Sample.applyChange
           [CallGetDocument 7; RequestFulfilled 0 100%Z] 0 (Some 0)
           Sample.ready7 Hrun).
  reflexivity.
Defined.

Lemma waiting_deferred_has_request_witness :
  Sample.run [CallGetDocument 7; RequestFulfilled 0 100%Z;
              ImageChanged (Sample.change 7 0)] initial
  = Returns tt Sample.refetching /\
  _documentDeferreds Sample.refetching !! 7%Z = Some 1 /\
  deferredStore Sample.refetching !! 1 = Some Unsettled /\
  exists request, requests Sample.refetching !! request = Some (mkRequest 7 false).
Proof.
  assert (Hrun : Sample.run [CallGetDocument 7; RequestFulfilled 0 100%Z;
                             ImageChanged (Sample.change 7 0)] initial
                 = Returns tt Sample.refetching) by (vm_compute; reflexivity).
  split; [exact Hrun|]. split; [reflexivity|]. split; [reflexivity|].
  apply (waiting_deferred_has_request Sample.newDocument Sample.applyChange
           [CallGetDocument 7; RequestFulfilled 0 100%Z;
            ImageChanged (Sample.change 7 0)] 7 1 Sample.refetching Hrun);
    reflexivity.
Defined.

End DocumentManager.
